(** * LoggingSubprocess: a shallow embedding of [openjd/sessions/_subprocess.py]

    The class [LoggingSubprocess] launches a command (optionally as another
    OS user), forwards the child's merged output to a logger and offers the
    two-step cancellation protocol notify / terminate.

    The embedding follows the source method by method.  Python objects become
    records, [Optional] becomes [option], a raised exception becomes the
    [Raise] branch of [PyResult], and everything a method does to the outside
    world (log records, processes created, the completion hook) is appended to
    a chronological list of [Event]s.  The body of [run] is cut into its source
    statements, one atomic step each, so that what another thread can observe
    between two statements is a state of the model. *)

From Stdlib Require Import String Ascii List ZArith Lia Bool.
From Stdlib Require Import DecimalString.
Import ListNotations.
Open Scope string_scope.
Open Scope list_scope.
Open Scope Z_scope.

(** ** Python values used by the module *)

(** Exception classes that occur in, or can cross, the module.  The classes
    below [OSError] in Python's hierarchy are listed so that
    [except OSError] can be modelled with its subclass test. *)
Inductive ExcClass : Type :=
| ValueError
| RuntimeError
| NotImplementedError
| OSError
| FileNotFoundError
| PermissionError
| KeyError
| TypeError
| AssertionError
| AttributeError
| UnicodeDecodeError.

Record PyExc : Type := { exc_class : ExcClass; exc_msg : string }.

(** [isinstance(e, OSError)]. *)
Definition is_OSError (e : PyExc) : bool :=
  match exc_class e with
  | OSError | FileNotFoundError | PermissionError => true
  | _ => false
  end.

Inductive PyResult (A : Type) : Type :=
| Ok (a : A)
| Raise (e : PyExc).
Arguments Ok {A} a.
Arguments Raise {A} e.

(** [str(b)] for a bool and [str(n)] for an int. *)
Definition str_bool (b : bool) : string := if b then "True" else "False".
Definition str_int (n : Z) : string := NilZero.string_of_int (Z.to_int n).

(** ** Session users ([_session_user]) *)

(** A [SessionUser] is an instance of one of the two subclasses the module
    tests for with [isinstance], or of some other subclass. *)
Inductive SessionUser : Type :=
| PosixSessionUser (user : string)
| WindowsSessionUser (user : string)
| OtherSessionUser.

Definition isinstance_PosixSessionUser (u : SessionUser) : bool :=
  match u with PosixSessionUser _ => true | _ => false end.

Definition isinstance_WindowsSessionUser (u : SessionUser) : bool :=
  match u with WindowsSessionUser _ => true | _ => false end.

(** [cast(PosixSessionUser, u).user]: the cast is a no-op at run time, the
    attribute read gives the account name. *)
Definition user_name (u : SessionUser) : string :=
  match u with
  | PosixSessionUser n => n
  | WindowsSessionUser n => n
  | OtherSessionUser => ""
  end.

(** ** The child process object ([subprocess.Popen]) *)

(** The Python-side fields are [pid] and [returncode]; the others describe
    the child and its pipe as the operating system and the text layer of
    [Popen] see them.  [stdout] is the text still to be read from the merged
    stdout/stderr pipe: the characters that the text layer obtains from the
    strict decoder of the handle's encoding, before newline translation, up
    to where decoding fails if it does (the decoder takes the child's bytes
    in chunks and refuses a chunk with an undecodable byte as a whole).
    [stdout_error] is the UnicodeDecodeError raised there, [None] when all
    of the child's output decodes.  A character is a code point below 256;
    it is not a byte (see [utf8_size]).
    [child_exited] tells whether the child has exited and [child_status] the
    status it exits with. *)
Record Popen : Type := {
  pid : Z;
  returncode : option Z;
  stdout : string;
  stdout_error : option PyExc;
  child_exited : bool;
  child_status : Z
}.

Definition set_returncode (p : Popen) (rc : option Z) : Popen :=
  {| pid := pid p; returncode := rc; stdout := stdout p;
     stdout_error := stdout_error p;
     child_exited := child_exited p; child_status := child_status p |}.

Definition set_stdout (p : Popen) (s : string) : Popen :=
  {| pid := pid p; returncode := returncode p; stdout := s;
     stdout_error := stdout_error p;
     child_exited := child_exited p; child_status := child_status p |}.

Definition set_child_exited (p : Popen) (b : bool) : Popen :=
  {| pid := pid p; returncode := returncode p; stdout := stdout p;
     stdout_error := stdout_error p;
     child_exited := b; child_status := child_status p |}.

(** [Popen.poll()]: check whether the child has terminated; set and return
    the [returncode] attribute. *)
Definition poll (p : Popen) : option Z * Popen :=
  match returncode p with
  | Some rc => (Some rc, p)
  | None =>
      if child_exited p
      then (Some (child_status p), set_returncode p (Some (child_status p)))
      else (None, p)
  end.

(** [Popen.wait()]: block until the child has terminated; set [returncode].
    The time the caller spends blocked is folded into the call: when it
    returns the child has exited. *)
Definition wait (p : Popen) : Popen :=
  match returncode p with
  | Some _ => p
  | None => set_returncode (set_child_exited p true) (Some (child_status p))
  end.

(** The keyword arguments the module passes to [Popen]. *)
Inductive Redirect : Type := DEVNULL | PIPE | STDOUT.

Record PopenArgs : Type := {
  pa_args : list string;
  pa_stdin : Redirect;
  pa_stdout : Redirect;
  pa_stderr : Redirect;
  pa_encoding : string;
  pa_start_new_session : bool;
  pa_creationflags : option string
}.

(** [subprocess.run] returns a [CompletedProcess].  Its [stdout] is bytes;
    the module only ever decodes them, so they are given by what
    [result.stdout.decode("utf-8")] results in: the text, or the
    UnicodeDecodeError. *)
Record CompletedProcess : Type := {
  cp_returncode : Z;
  cp_stdout_decode : PyResult string
}.

(** ** The environment of the module *)

(** What the module imports and calls but does not define: the host
    operating system, the invoking account, library functions, and the
    outcome of creating processes. *)
Record Env : Type := {
  os_name : string;                       (* os.name *)
  getuser : string;                       (* getpass.getuser() *)
  shlex_join : list string -> string;     (* shlex.join *)
  list2cmdline : list string -> string;   (* subprocess.list2cmdline *)
  (* encode_to_base64(generate_start_job_wrapper(args, user)) *)
  encoded_start_job_wrapper :
    list string -> option SessionUser -> PyResult string;
  Popen_call : PopenArgs -> PyResult Popen;           (* Popen of popen_args *)
  subprocess_run : list string -> PyResult CompletedProcess; (* run(cmd, ...) *)
  kill_windows_process_tree : Z -> bool -> PyResult unit
}.

(** Modelled from the spec: the module [_os_checker] is not part of the
    sources at hand.  The spec speaks of a host that is POSIX or Windows;
    the two predicates test [os.name] for the names Python gives these. *)
Definition is_posix (env : Env) : bool := String.eqb (os_name env) "posix".
Definition is_windows (env : Env) : bool := String.eqb (os_name env) "nt".

Definition POSIX_SIGNAL_SUBPROC_SCRIPT : string :=
  "_scripts/_posix/_signal_subprocess.sh".

Definition LOG_LINE_MAX_LENGTH : Z := 64 * 1000.

(** ** Observable effects *)

Inductive Level : Type := INFO | WARNING.

Inductive Event : Type :=
| EvLog (lvl : Level) (msg : string)            (* self._logger.<lvl>(msg) *)
| EvPopen (a : PopenArgs)                       (* Popen of popen_args *)
| EvRun (cmd : list string)                     (* run(cmd, ...): the relay *)
| EvKillWindowsTree (root : Z) (signal_subprocesses : bool)
| EvReadline (limit : Z)                        (* stream.readline(limit) *)
| EvCallback.                                   (* self._callback() *)

(** ** The class *)

(** A completion hook: an object that is true or false when tested
    ([if self._callback:]) and whose call returns or raises. *)
Record Callback : Type := {
  cb_truthy : bool;
  cb_result : PyResult unit
}.

(** A plain function: true, and returning normally. *)
Definition plain_callback : Callback :=
  {| cb_truthy := true; cb_result := Ok tt |}.

Record LoggingSubprocess : Type := {
  _process : option Popen;
  _args : list string;
  _encoding : string;
  _user : option SessionUser;
  _callback : option Callback;
  _start_failed : bool;
  _has_started : bool        (* the threading.Event: set or not *)
}.

Definition set_process (self : LoggingSubprocess) (p : option Popen)
  : LoggingSubprocess :=
  {| _process := p; _args := _args self; _encoding := _encoding self;
     _user := _user self; _callback := _callback self;
     _start_failed := _start_failed self;
     _has_started := _has_started self |}.

Definition set_start_failed (self : LoggingSubprocess) (b : bool)
  : LoggingSubprocess :=
  {| _process := _process self; _args := _args self;
     _encoding := _encoding self; _user := _user self;
     _callback := _callback self; _start_failed := b;
     _has_started := _has_started self |}.

Definition set_has_started (self : LoggingSubprocess) (b : bool)
  : LoggingSubprocess :=
  {| _process := _process self; _args := _args self;
     _encoding := _encoding self; _user := _user self;
     _callback := _callback self; _start_failed := _start_failed self;
     _has_started := b |}.

(** *** Construction *)

Definition __init__ (env : Env) (args : list string) (encoding : string)
    (user : option SessionUser) (callback : option Callback)
  : PyResult LoggingSubprocess :=
  if (Z.of_nat (length args) <? 1) then
    Raise {| exc_class := ValueError;
             exc_msg := "'args' kwarg must be a sequence of at least one element" |}
  else if match user with
          | Some u => String.eqb (os_name env) "posix"
                      && negb (isinstance_PosixSessionUser u)
          | None => false
          end then
    Raise {| exc_class := ValueError;
             exc_msg := "Argument 'user' must be a PosixSessionUser on posix systems." |}
  else if match user with
          | Some u => is_windows env && negb (isinstance_WindowsSessionUser u)
          | None => false
          end then
    Raise {| exc_class := ValueError;
             exc_msg := "Argument 'user' must be a WindowsSessionUser on Windows systems." |}
  else
    Ok {| _process := None; _args := args; _encoding := encoding;
          _user := user; _callback := callback;
          _start_failed := false; _has_started := false |}.

(** *** Properties *)

(** The property [pid]; the plain name is the field of [Popen]. *)
Definition pid_of (self : LoggingSubprocess) : option Z :=
  match _process self with
  | Some p => Some (pid p)
  | None => None
  end.

Definition exit_code (self : LoggingSubprocess) : option Z :=
  match _process self with
  | Some p => returncode p
  | None => None
  end.

Definition is_running (self : LoggingSubprocess) : bool :=
  match _process self with
  | Some p => match returncode p with None => true | Some _ => false end
  | None => false
  end.

Definition has_started (self : LoggingSubprocess) : bool := _has_started self.

Definition failed_to_start (self : LoggingSubprocess) : bool :=
  _start_failed self.

(** [wait_until_started(timeout)] is [self._has_started.wait(...)]: the
    caller is blocked while the latch is not set.  Time is not modelled;
    what is, is whether a caller that finds the handle in this state, and
    the state no longer changing, ever gets the call back: at once when the
    latch is set, otherwise only through a timeout. *)
Definition wait_until_started_returns (self : LoggingSubprocess)
    (timeout : option Z) : bool :=
  _has_started self || match timeout with Some _ => true | None => false end.

(** ** Effects of a method body: result plus emitted events *)

Module Eff.

Definition M (A : Type) : Type := (PyResult A * list Event)%type.

Definition ret {A : Type} (a : A) : M A := (Ok a, []).

Definition raise {A : Type} (e : PyExc) : M A := (Raise e, []).

Definition emit (ev : Event) : M unit := (Ok tt, [ev]).

Definition lift {A : Type} (r : PyResult A) : M A := (r, []).

Definition bind {A B : Type} (m : M A) (f : A -> M B) : M B :=
  match m with
  | (Ok a, t) => let (r, t') := f a in (r, t ++ t')
  | (Raise e, t) => (Raise e, t)
  end.

End Eff.

Notation "x <- c1 ;; c2" := (Eff.bind c1 (fun x => c2))
  (at level 61, c1 at next level, right associativity).
Notation "c1 ;;; c2" := (Eff.bind c1 (fun _ => c2))
  (at level 61, right associativity).

(** *** _start_subprocess *)

(** The body of the [try] block. *)
Definition _start_subprocess_try (env : Env) (self : LoggingSubprocess)
  : Eff.M Popen :=
  let command : list string :=
    match _user self with
    | Some user =>
        if is_posix env then
          if negb (String.eqb (user_name user) (getuser env))
          then ["sudo"; "-u"; user_name user; "-i"; "setsid"; "-w"]
          else []
        else []
    | None => []
    end in
  let popen_args (command : list string) (creationflags : option string) :=
    {| pa_args := command;
       pa_stdin := DEVNULL;
       pa_stdout := PIPE;
       pa_stderr := STDOUT;
       pa_encoding := _encoding self;
       pa_start_new_session := true;
       pa_creationflags := creationflags |} in
  a <- (if is_posix env then
          Eff.ret (popen_args (command ++ _args self) None)
        else
          encoded_start_service_command <-
            Eff.lift (encoded_start_job_wrapper env (_args self) (_user self)) ;;
          Eff.ret (popen_args
                     ["powershell.exe"; "-ExecutionPolicy"; "Unrestricted";
                      "-EncodedCommand"; encoded_start_service_command]
                     (Some "CREATE_NEW_PROCESS_GROUP"))) ;;
  let cmd_line_for_logger :=
    if is_posix env then shlex_join env (pa_args a)
    else list2cmdline env (_args self) in
  Eff.emit (EvLog INFO ("Running command " ++ cmd_line_for_logger)%string) ;;;
  Eff.emit (EvPopen a) ;;;
  Eff.lift (Popen_call env a).

(** [try: ... except OSError as e: log; return None]. *)
Definition _start_subprocess (env : Env) (self : LoggingSubprocess)
  : Eff.M (option Popen) :=
  match _start_subprocess_try env self with
  | (Ok p, t) => (Ok (Some p), t)
  | (Raise e, t) =>
      if is_OSError e
      then (Ok None, t ++ [EvLog INFO ("Process failed to start: " ++ exc_msg e)%string])
      else (Raise e, t)
  end.

(** *** _posix_signal_subprocess *)

(** Lines 285 to 303: the command handed to [run]. *)
Definition posix_signal_cmd (env : Env) (self : LoggingSubprocess)
    (process : Popen) (signal : string) (signal_subprocesses : bool)
  : list string :=
  let '(cmd, signal_child) :=
    match _user self with
    | Some user =>
        (if negb (String.eqb (user_name user) (getuser env))
         then ["sudo"; "-u"; user_name user; "-i"]
         else [],
         true)
    | None => ([], false)
    end in
  cmd ++ [POSIX_SIGNAL_SUBPROC_SCRIPT;
          str_int (pid process);
          signal;
          str_bool signal_child;
          str_bool signal_subprocesses].

Definition _posix_signal_subprocess (env : Env) (self : LoggingSubprocess)
    (signal : string) (signal_subprocesses : bool) : Eff.M unit :=
  match _process self with
  | None => Eff.raise {| exc_class := AssertionError; exc_msg := "" |}
  | Some process =>
      let cmd := posix_signal_cmd env self process signal signal_subprocesses in
      Eff.emit (EvLog INFO ("Running: " ++ shlex_join env cmd)%string) ;;;
      Eff.emit (EvRun cmd) ;;;
      result <- Eff.lift (subprocess_run env cmd) ;;
      if negb (cp_returncode result =? 0) then
        output <- Eff.lift (cp_stdout_decode result) ;;
        Eff.emit (EvLog WARNING
                    ("Failed to send signal '" ++ signal ++ "' to subprocess "
                     ++ str_int (pid process) ++ ": " ++ output)%string)
      else Eff.ret tt
  end.

(** *** notify and terminate *)

(** Both begin with
    [if self._process is not None and self._process.poll() is None:];
    [poll] may store the return code in the process object, so the methods
    give back the handle as well. *)
Definition notify (env : Env) (self : LoggingSubprocess)
  : LoggingSubprocess * Eff.M unit :=
  match _process self with
  | None => (self, Eff.ret tt)
  | Some p =>
      let (rc, p') := poll p in
      let self := set_process self (Some p') in
      match rc with
      | Some _ => (self, Eff.ret tt)
      | None =>
          (self,
           if is_posix env then
             _posix_signal_subprocess env self "term" false
           else
             Eff.raise {| exc_class := NotImplementedError;
                          exc_msg := "Notify not implemented on non-posix yet" |})
      end
  end.

Definition terminate (env : Env) (self : LoggingSubprocess)
  : LoggingSubprocess * Eff.M unit :=
  match _process self with
  | None => (self, Eff.ret tt)
  | Some p =>
      let (rc, p') := poll p in
      let self := set_process self (Some p') in
      match rc with
      | Some _ => (self, Eff.ret tt)
      | None =>
          (self,
           if is_posix env then
             _posix_signal_subprocess env self "kill" true
           else
             Eff.emit (EvLog INFO
                         ("Start killing the process tree with the root pid: "
                          ++ str_int (pid p'))%string) ;;;
             Eff.emit (EvKillWindowsTree (pid p') true) ;;;
             Eff.lift (kill_windows_process_tree env (pid p') true))
      end
  end.

(** ** The output stream *)

Definition LF : ascii := "010"%char.
Definition CR : ascii := "013"%char.

(** The text stream [Popen] builds when an encoding is given translates
    line endings (universal newlines): a carriage return followed by a line
    feed, and a carriage return alone, are both read as one line feed. *)
Fixpoint universal_newlines (s : string) : string :=
  match s with
  | EmptyString => EmptyString
  | String c s' =>
      if Ascii.eqb c CR then
        String LF
          match s' with
          | String d s'' =>
              if Ascii.eqb d LF then universal_newlines s''
              else universal_newlines s'
          | EmptyString => EmptyString
          end
      else String c (universal_newlines s')
  end.

(** The characters [stream.readline(size)] takes from the decoded text [s]
    that is still to come, and what is left: translated characters up to
    and including the first line feed, at most [size] of them. *)
Fixpoint readline_upto (size : nat) (s : string) : string * string :=
  match size, s with
  | O, _ => (EmptyString, s)
  | _, EmptyString => (EmptyString, EmptyString)
  | S size', String c s' =>
      if Ascii.eqb c CR then
        (String LF EmptyString,
         match s' with
         | String d s'' => if Ascii.eqb d LF then s'' else s'
         | EmptyString => EmptyString
         end)
      else if Ascii.eqb c LF then (String c EmptyString, s')
      else let (line, rest) := readline_upto size' s' in (String c line, rest)
  end.

(** A read is complete when it ends in a line feed or holds [size]
    characters; otherwise it has run into the end of the decoded text. *)
Fixpoint ends_in_LF (s : string) : bool :=
  match s with
  | EmptyString => false
  | String c EmptyString => Ascii.eqb c LF
  | String _ s' => ends_in_LF s'
  end.

Definition line_complete (size : nat) (line : string) : bool :=
  ends_in_LF line || Nat.eqb (String.length line) size.

(** [stream.readline(size)]: a complete read is returned.  A read that runs
    into the end of the decoded text makes the text layer decode more:
    where decoding fails, with [err], the call raises and what it had
    gathered is not returned; where the child's output ends, the call
    returns what it has, the empty string when there is nothing. *)
Definition readline (size : Z) (s : string) (err : option PyExc)
  : PyResult (string * string) :=
  let (line, rest) := readline_upto (Z.to_nat size) s in
  if line_complete (Z.to_nat size) line then Ok (line, rest)
  else match err with
       | Some e => Raise e
       | None => Ok (line, rest)
       end.

(** [line.rstrip("\n\r")]: drop every trailing line feed and carriage
    return. *)
Fixpoint rstrip (s : string) : string :=
  match s with
  | EmptyString => EmptyString
  | String c s' =>
      match rstrip s' with
      | EmptyString =>
          if Ascii.eqb c LF || Ascii.eqb c CR then EmptyString
          else String c EmptyString
      | r => String c r
      end
  end.

(** ** run, statement by statement *)

(** Where the thread executing [run] stands; the comment gives the source
    lines of the statement executed next. *)
Inductive PC : Type :=
| AtGuard                   (* 138-139  if self._process is not None: raise *)
| AtStart                   (* 141      self._process = self._start_subprocess() *)
| AtSetStarted              (* 142      self._has_started.set() *)
| AtCheckProcess            (* 143      if self._process is None: *)
| AtSetFailed               (* 145      self._start_failed = True *)
| AtFailCallback            (* 146-147  if self._callback: self._callback() *)
| AtFailReturn              (* 148      return *)
| AtLogStarted              (* 150      self._logger.info(started as pid) *)
| AtReadline                (* 161      next item of iter(readline, sentinel) *)
| AtLogLine (line : string) (* 162-163  rstrip, self._logger.info(line) *)
| AtWait                    (* 165      self._process.wait() *)
| AtCallback                (* 167-168  if self._callback: self._callback() *)
| AtReturn                  (*          the end of the body *)
| Returned
| Raised (e : PyExc).

Record Cfg : Type := {
  pc : PC;
  self : LoggingSubprocess;
  trace : list Event
}.

Definition no_process : PyExc :=
  {| exc_class := AttributeError; exc_msg := "'NoneType' object" |}.

(** [if self._callback: self._callback()]: the hook is called when there is
    one and it tests true. *)
Definition call_callback (c : Cfg) (next : PC) : Cfg :=
  match _callback (self c) with
  | None => {| pc := next; self := self c; trace := trace c |}
  | Some cb =>
      if cb_truthy cb then
        match cb_result cb with
        | Ok _ =>
            {| pc := next; self := self c; trace := trace c ++ [EvCallback] |}
        | Raise e =>
            {| pc := Raised e; self := self c;
               trace := trace c ++ [EvCallback] |}
        end
      else {| pc := next; self := self c; trace := trace c |}
  end.

Definition run_step (env : Env) (c : Cfg) : Cfg :=
  match pc c with
  | AtGuard =>
      match _process (self c) with
      | Some _ =>
          {| pc := Raised {| exc_class := RuntimeError;
                             exc_msg := "The process has already been run" |};
             self := self c; trace := trace c |}
      | None => {| pc := AtStart; self := self c; trace := trace c |}
      end
  | AtStart =>
      match _start_subprocess env (self c) with
      | (Ok p, t) =>
          {| pc := AtSetStarted; self := set_process (self c) p;
             trace := trace c ++ t |}
      | (Raise e, t) =>
          {| pc := Raised e; self := self c; trace := trace c ++ t |}
      end
  | AtSetStarted =>
      {| pc := AtCheckProcess; self := set_has_started (self c) true;
         trace := trace c |}
  | AtCheckProcess =>
      match _process (self c) with
      | None => {| pc := AtSetFailed; self := self c; trace := trace c |}
      | Some _ => {| pc := AtLogStarted; self := self c; trace := trace c |}
      end
  | AtSetFailed =>
      {| pc := AtFailCallback; self := set_start_failed (self c) true;
         trace := trace c |}
  | AtFailCallback => call_callback c AtFailReturn
  | AtFailReturn => {| pc := Returned; self := self c; trace := trace c |}
  | AtLogStarted =>
      match _process (self c) with
      | None => {| pc := Raised no_process; self := self c; trace := trace c |}
      | Some p =>
          {| pc := AtReadline; self := self c;
             trace := trace c ++
               [EvLog INFO ("Command started as pid: " ++ str_int (pid p))%string] |}
      end
  | AtReadline =>
      match _process (self c) with
      | None => {| pc := Raised no_process; self := self c; trace := trace c |}
      | Some p =>
          match readline LOG_LINE_MAX_LENGTH (stdout p) (stdout_error p) with
          | Ok (line, rest) =>
              {| pc := if String.eqb line "" then AtWait else AtLogLine line;
                 self := set_process (self c) (Some (set_stdout p rest));
                 trace := trace c ++ [EvReadline LOG_LINE_MAX_LENGTH] |}
          | Raise e =>
              {| pc := Raised e; self := self c;
                 trace := trace c ++ [EvReadline LOG_LINE_MAX_LENGTH] |}
          end
      end
  | AtLogLine line =>
      {| pc := AtReadline; self := self c;
         trace := trace c ++ [EvLog INFO (rstrip line)] |}
  | AtWait =>
      match _process (self c) with
      | None => {| pc := Raised no_process; self := self c; trace := trace c |}
      | Some p =>
          {| pc := AtCallback; self := set_process (self c) (Some (wait p));
             trace := trace c |}
      end
  | AtCallback => call_callback c AtReturn
  | AtReturn => {| pc := Returned; self := self c; trace := trace c |}
  | Returned => c
  | Raised _ => c
  end.

Definition finished (p : PC) : bool :=
  match p with
  | Returned | Raised _ => true
  | _ => false
  end.

Fixpoint run_steps (env : Env) (n : nat) (c : Cfg) : Cfg :=
  match n with
  | O => c
  | S n' => run_steps env n' (run_step env c)
  end.

Definition enter_run (self0 : LoggingSubprocess) (t : list Event) : Cfg :=
  {| pc := AtGuard; self := self0; trace := t |}.

(** A call of [run] by a thread left alone: the outcome once the body has
    finished, [None] while it has not (within [fuel] statements). *)
Definition run (env : Env) (fuel : nat) (self0 : LoggingSubprocess)
  : option (PyResult unit * LoggingSubprocess * list Event) :=
  let c := run_steps env fuel (enter_run self0 []) in
  match pc c with
  | Returned => Some (Ok tt, self c, trace c)
  | Raised e => Some (Raise e, self c, trace c)
  | _ => None
  end.

(** ** Other threads *)

(** While one thread executes [run], other threads may call [notify] and
    [terminate], and the child may exit.  Each is one move of the system;
    the exception a call of [notify] or [terminate] raises goes to its
    caller and is not kept. *)
Inductive Action : Type :=
| ThreadRun          (* the thread in [run] executes its next statement *)
| CallNotify         (* another thread calls notify() *)
| CallTerminate      (* another thread calls terminate() *)
| ChildExits.        (* the operating system sees the child exit *)

Definition sys_step (env : Env) (a : Action) (c : Cfg) : Cfg :=
  match a with
  | ThreadRun => run_step env c
  | CallNotify =>
      let (self', m) := notify env (self c) in
      {| pc := pc c; self := self'; trace := trace c ++ snd m |}
  | CallTerminate =>
      let (self', m) := terminate env (self c) in
      {| pc := pc c; self := self'; trace := trace c ++ snd m |}
  | ChildExits =>
      match _process (self c) with
      | Some p =>
          {| pc := pc c;
             self := set_process (self c) (Some (set_child_exited p true));
             trace := trace c |}
      | None => c
      end
  end.

Definition interleave (env : Env) (acts : list Action) (c : Cfg) : Cfg :=
  fold_left (fun c a => sys_step env a c) acts c.

(** ** Reading traces *)

(** The commands handed to [subprocess.run], in order. *)
Fixpoint relay_calls (t : list Event) : list (list string) :=
  match t with
  | [] => []
  | EvRun cmd :: t' => cmd :: relay_calls t'
  | _ :: t' => relay_calls t'
  end.

Fixpoint callback_calls (t : list Event) : nat :=
  match t with
  | [] => O
  | EvCallback :: t' => S (callback_calls t')
  | _ :: t' => callback_calls t'
  end.

(** The process is live: spawned, not reaped, and not exited. *)
Definition live (p : Popen) : Prop :=
  returncode p = None /\ child_exited p = false.


(** What calling the completion hook, if there is one, results in. *)
Definition callback_outcome (self0 : LoggingSubprocess)
  : PyResult unit * list Event :=
  match _callback self0 with
  | None => (Ok tt, [])
  | Some cb =>
      if cb_truthy cb then
        match cb_result cb with
        | Ok _ => (Ok tt, [EvCallback])
        | Raise e => (Raise e, [EvCallback])
        end
      else (Ok tt, [])
  end.

Definition already_run : PyExc :=
  {| exc_class := RuntimeError; exc_msg := "The process has already been run" |}.

Definition is_Raise {A : Type} (r : PyResult A) : bool :=
  match r with Raise _ => true | Ok _ => false end.

(** ** A host to run examples on *)

Module Example.

Definition spawned : Popen :=
  {| pid := 4242; returncode := None;
     stdout := String "h" (String "i" (String LF (String "x" EmptyString)));
     stdout_error := None;
     child_exited := false; child_status := 3 |}.

Definition not_found : PyExc :=
  {| exc_class := FileNotFoundError;
     exc_msg := "[Errno 2] No such file or directory" |}.

Definition null_byte : PyExc :=
  {| exc_class := ValueError; exc_msg := "embedded null byte" |}.

(** A POSIX host, invoking account [worker]; [missing] cannot be executed,
    [nul] is refused by [Popen] before any process is created, every other
    command runs as [spawned]. *)
Definition posix : Env :=
  {| os_name := "posix";
     getuser := "worker";
     shlex_join := String.concat " ";
     list2cmdline := String.concat " ";
     encoded_start_job_wrapper := fun _ _ => Ok "cGF5bG9hZA==";
     Popen_call := fun a =>
       match pa_args a with
       | "missing" :: _ => Raise not_found
       | "nul" :: _ => Raise null_byte
       | _ => Ok spawned
       end;
     subprocess_run :=
       fun _ => Ok {| cp_returncode := 0; cp_stdout_decode := Ok "" |};
     kill_windows_process_tree := fun _ _ => Ok tt |}.

Definition handle (args : list string) (user : option SessionUser)
  : LoggingSubprocess :=
  {| _process := None; _args := args; _encoding := "utf-8";
     _user := user; _callback := Some plain_callback;
     _start_failed := false; _has_started := false |}.

End Example.

(** ** Reading the stream as [run] does *)

(** The successive results of [readline(size)] on the text [s] with
    decoding error [err], up to and without the read that ends the loop: the
    one that returns the empty string or raises.  [fuel] bounds the number
    of reads; [String.length s] reads are always enough when [size] is
    positive. *)
Fixpoint lines_of (fuel : nat) (size : Z) (s : string) (err : option PyExc)
  : list string :=
  match fuel with
  | O => []
  | S fuel' =>
      match readline size s err with
      | Ok (line, rest) =>
          if String.eqb line "" then []
          else line :: lines_of fuel' size rest err
      | Raise _ => []
      end
  end.

(** What the loop of [run] does for these lines: a read and a log record for
    each, then the read that ends the loop. *)
Definition stream_events (lines : list string) : list Event :=
  flat_map (fun line => [EvReadline LOG_LINE_MAX_LENGTH;
                         EvLog INFO (rstrip line)]) lines
  ++ [EvReadline LOG_LINE_MAX_LENGTH].

Fixpoint last_char (s : string) : option ascii :=
  match s with
  | EmptyString => None
  | String c EmptyString => Some c
  | String _ s' => last_char s'
  end.

Fixpoint has_char (c : ascii) (s : string) : bool :=
  match s with
  | EmptyString => false
  | String d s' => Ascii.eqb d c || has_char c s'
  end.

(** Every character of [s] is a line feed or a carriage return. *)
Fixpoint only_terminators (s : string) : bool :=
  match s with
  | EmptyString => true
  | String c s' => (Ascii.eqb c LF || Ascii.eqb c CR) && only_terminators s'
  end.

Definition string_concat (l : list string) : string :=
  fold_right String.append EmptyString l.

(** ** Reaping *)

(** The statements of [run] up to and including [self._process.wait()]:
    while [run] stands at one of them the process has not been reaped. *)
Definition before_reap (p : PC) : bool :=
  match p with
  | AtCallback | AtReturn | Returned | Raised _ => false
  | _ => true
  end.

(** A process object just created has no return code yet. *)
Definition fresh_popen (env : Env) : Prop :=
  forall a p, Popen_call env a = Ok p -> returncode p = None.

(** ** More readers of traces *)

(** The keyword arguments of the [Popen] calls, in order. *)
Fixpoint popen_calls (t : list Event) : list PopenArgs :=
  match t with
  | [] => []
  | EvPopen a :: t' => a :: popen_calls t'
  | _ :: t' => popen_calls t'
  end.

(** The calls of [kill_windows_process_tree], in order. *)
Fixpoint kill_tree_calls (t : list Event) : list (Z * bool) :=
  match t with
  | [] => []
  | EvKillWindowsTree root cascade :: t' => (root, cascade) :: kill_tree_calls t'
  | _ :: t' => kill_tree_calls t'
  end.

(** The messages logged at a given level, in order. *)
Definition level_eqb (a b : Level) : bool :=
  match a, b with
  | INFO, INFO | WARNING, WARNING => true
  | _, _ => false
  end.

Fixpoint log_messages (lvl : Level) (t : list Event) : list string :=
  match t with
  | [] => []
  | EvLog l msg :: t' =>
      if level_eqb l lvl then msg :: log_messages lvl t'
      else log_messages lvl t'
  | _ :: t' => log_messages lvl t'
  end.

(** ** Text *)

(** [s] without any of its line feeds and carriage returns. *)
Fixpoint strip_terminators (s : string) : string :=
  match s with
  | EmptyString => EmptyString
  | String c s' =>
      if Ascii.eqb c LF || Ascii.eqb c CR then strip_terminators s'
      else String c (strip_terminators s')
  end.

(** The text of a child that prints the given lines, a line feed after
    each. *)
Fixpoint join_lines (ls : list string) : string :=
  match ls with
  | [] => EmptyString
  | l :: ls' => (l ++ String LF (join_lines ls'))%string
  end.

(** ** The life cycle of a handle *)

(** What holds of the handle at each statement of a [run] entered on a
    handle that has no process and has not failed to start, whatever other
    threads do meanwhile.  [cb] is the completion hook of the handle. *)
Definition expected_calls (cb : option Callback) : nat :=
  match cb with
  | Some f => if cb_truthy f then 1%nat else 0%nat
  | None => 0%nat
  end.

Definition lifecycle_inv (cb : option Callback) (c : Cfg) : Prop :=
  _callback (self c) = cb /\
  match pc c with
  | AtGuard | AtStart =>
      _process (self c) = None /\ _start_failed (self c) = false /\
      callback_calls (trace c) = O
  | AtSetStarted =>
      _start_failed (self c) = false /\ callback_calls (trace c) = O
  | AtCheckProcess =>
      _start_failed (self c) = false /\ _has_started (self c) = true /\
      callback_calls (trace c) = O
  | AtSetFailed =>
      _process (self c) = None /\ _start_failed (self c) = false /\
      _has_started (self c) = true /\ callback_calls (trace c) = O
  | AtFailCallback =>
      _process (self c) = None /\ _start_failed (self c) = true /\
      _has_started (self c) = true /\ callback_calls (trace c) = O
  | AtFailReturn =>
      _process (self c) = None /\ _start_failed (self c) = true /\
      _has_started (self c) = true /\
      callback_calls (trace c) = expected_calls cb
  | AtLogStarted | AtReadline | AtLogLine _ | AtWait =>
      _process (self c) <> None /\ _start_failed (self c) = false /\
      _has_started (self c) = true /\ callback_calls (trace c) = O
  | AtCallback =>
      exit_code (self c) <> None /\ _start_failed (self c) = false /\
      _has_started (self c) = true /\ callback_calls (trace c) = O
  | AtReturn =>
      exit_code (self c) <> None /\ _start_failed (self c) = false /\
      _has_started (self c) = true /\
      callback_calls (trace c) = expected_calls cb
  | Returned =>
      _has_started (self c) = true /\
      callback_calls (trace c) = expected_calls cb /\
      ((_start_failed (self c) = true /\ _process (self c) = None) \/
       (_start_failed (self c) = false /\ exit_code (self c) <> None))
  | Raised _ =>
      (callback_calls (trace c) <= 1)%nat /\
      (_start_failed (self c) = true ->
       _process (self c) = None /\ _has_started (self c) = true)
  end.

(** What another thread has read of a handle stays true of it: a set latch
    stays set, a failed start stays failed, a pid and an exit code, once
    there, stay and keep their value. *)
Definition only_forward (s s' : LoggingSubprocess) : Prop :=
  (has_started s = true -> has_started s' = true) /\
  (failed_to_start s = true -> failed_to_start s' = true) /\
  (forall n, pid_of s = Some n -> pid_of s' = Some n) /\
  (forall k, exit_code s = Some k -> exit_code s' = Some k).

(** The return code stored in the process object, if any, is the status
    the child exited with. *)
Definition returncode_is_status (s : LoggingSubprocess) : Prop :=
  forall p, _process s = Some p ->
            returncode p = None \/ returncode p = Some (child_status p).

(** ** A child that prints whole lines *)

Module ExampleLines.

Definition spawned : Popen :=
  {| pid := 77; returncode := None;
     stdout := join_lines ["one"; "two"];
     stdout_error := None;
     child_exited := false; child_status := 0 |}.

Definition posix : Env :=
  {| os_name := "posix";
     getuser := "worker";
     shlex_join := String.concat " ";
     list2cmdline := String.concat " ";
     encoded_start_job_wrapper := fun _ _ => Ok "cGF5bG9hZA==";
     Popen_call := fun _ => Ok spawned;
     subprocess_run :=
       fun _ => Ok {| cp_returncode := 1; cp_stdout_decode := Ok "no" |};
     kill_windows_process_tree := fun _ _ => Ok tt |}.

End ExampleLines.

(** The statements of [run] before the process is created. *)
Definition before_spawn (p : PC) : bool :=
  match p with
  | AtGuard | AtStart => true
  | _ => false
  end.

(** ** A child whose output does not decode *)

Module ExampleUndecodable.

Definition invalid_start_byte : PyExc :=
  {| exc_class := UnicodeDecodeError;
     exc_msg := "'utf-8' codec can't decode byte 0xff in position 3: invalid start byte" |}.

(** The child writes the bytes of ok, a line feed and the byte 255, and
    exits with status 0.  The bytes arrive as one chunk, which the strict
    decoder refuses as a whole: no character reaches the text layer. *)
Definition spawned : Popen :=
  {| pid := 99; returncode := None;
     stdout := EmptyString;
     stdout_error := Some invalid_start_byte;
     child_exited := false; child_status := 0 |}.

Definition posix : Env :=
  {| os_name := "posix";
     getuser := "worker";
     shlex_join := String.concat " ";
     list2cmdline := String.concat " ";
     encoded_start_job_wrapper := fun _ _ => Ok "cGF5bG9hZA==";
     Popen_call := fun _ => Ok spawned;
     subprocess_run :=
       fun _ => Ok {| cp_returncode := 1;
                      cp_stdout_decode := Raise invalid_start_byte |};
     kill_windows_process_tree := fun _ _ => Ok tt |}.

End ExampleUndecodable.

(** ** Characters and bytes *)

(** The number of bytes of a character in UTF-8 (code points below 256). *)
Definition utf8_size (c : ascii) : nat :=
  if (nat_of_ascii c <? 128)%nat then 1%nat else 2%nat.

Fixpoint utf8_length (s : string) : nat :=
  match s with
  | EmptyString => O
  | String c s' => (utf8_size c + utf8_length s')%nat
  end.

Fixpoint replicate (n : nat) (c : ascii) : string :=
  match n with
  | O => EmptyString
  | S n' => String c (replicate n' c)
  end.

(** ** A Windows host for examples *)

Module ExampleWin.

Definition spawned : Popen :=
  {| pid := 808; returncode := None; stdout := EmptyString;
     stdout_error := None;
     child_exited := false; child_status := 0 |}.

(** A Windows host; the tree killer succeeds and the wrapper script for a
    command is the fixed payload. *)
Definition windows : Env :=
  {| os_name := "nt";
     getuser := "worker";
     shlex_join := String.concat " ";
     list2cmdline := String.concat " ";
     encoded_start_job_wrapper := fun _ _ => Ok "cGF5bG9hZA==";
     Popen_call := fun _ => Ok spawned;
     subprocess_run :=
       fun _ => Ok {| cp_returncode := 0; cp_stdout_decode := Ok "" |};
     kill_windows_process_tree := fun _ _ => Ok tt |}.

Definition handle (args : list string) (user : option SessionUser)
  : LoggingSubprocess :=
  {| _process := None; _args := args; _encoding := "utf-8";
     _user := user; _callback := None;
     _start_failed := false; _has_started := false |}.

End ExampleWin.

(** * Properties *)

(** ** Construction *)

Lemma length_lt_1_nil {A : Type} (l : list A) :
  (Z.of_nat (length l) <? 1) = true <-> l = [].
Proof.
  destruct l as [|a l]; simpl length.
  - split; reflexivity.
  - split; [|discriminate]. intro H. apply Z.ltb_lt in H. lia.
Qed.

(** C8. Construction raises if and only if the argument vector is empty or
    a principal is supplied whose variant does not match the host (not a
    PosixSessionUser on a POSIX host, not a WindowsSessionUser on a Windows
    host).  What it raises is a ValueError, and then there is no handle at
    all; when it does not raise, the handle is the unstarted one: no
    process, latch not set, start not failed. *)
Theorem init_raises_iff_invalid (env : Env) (args : list string)
    (encoding : string) (user : option SessionUser)
    (callback : option Callback) :
  (is_Raise (__init__ env args encoding user callback) = true <->
     (args = [] \/
      exists u, user = Some u /\
        ((is_posix env = true /\ isinstance_PosixSessionUser u = false) \/
         (is_windows env = true /\ isinstance_WindowsSessionUser u = false))))
  /\
  match __init__ env args encoding user callback with
  | Raise e => exc_class e = ValueError
  | Ok h =>
      h = {| _process := None; _args := args; _encoding := encoding;
             _user := user; _callback := callback;
             _start_failed := false; _has_started := false |}
  end.
Proof.
  unfold __init__, is_posix, is_windows.
  destruct (Z.of_nat (length args) <? 1) eqn:Hlen.
  - split; [|reflexivity]. split; [|reflexivity].
    intros _. left. now apply length_lt_1_nil.
  - assert (Hne : args <> []).
    { intro H. apply length_lt_1_nil in H. congruence. }
    destruct user as [u|].
    + destruct (String.eqb (os_name env) "posix") eqn:Hp;
        destruct (String.eqb (os_name env) "nt") eqn:Hw;
        destruct u; simpl; (split; [|reflexivity]); split;
        try discriminate; try reflexivity;
        try (intros [H|(u' & Hu & [[H1 H2]|[H1 H2]])];
             [contradiction| |]; inversion Hu; subst; simpl in *; discriminate);
        intros _; right; eexists; (split; [reflexivity|]); simpl; tauto.
    + simpl. split; [|reflexivity]. split; [discriminate|].
      intros [H|(u & Hu & _)]; [contradiction|discriminate].
Qed.

(** ** notify and terminate *)


Lemma poll_live (p : Popen) : live p -> poll p = (None, p).
Proof.
  unfold live, poll. intros [H1 H2]. now rewrite H1, H2.
Qed.



Lemma posix_signal_relay_calls (env : Env) (self : LoggingSubprocess)
    (p : Popen) (signal : string) (flag : bool) :
  _process self = Some p ->
  relay_calls (snd (_posix_signal_subprocess env self signal flag))
  = [posix_signal_cmd env self p signal flag].
Proof.
  intro H. unfold _posix_signal_subprocess. rewrite H. simpl.
  destruct (subprocess_run env _) as [result|e]; simpl; [|reflexivity].
  destruct (cp_returncode result =? 0); cbn; [reflexivity|].
  destruct (cp_stdout_decode result); reflexivity.
Qed.

Lemma notify_live_posix (env : Env) (self : LoggingSubprocess) (p : Popen) :
  is_posix env = true -> _process self = Some p -> live p ->
  notify env self = (self, _posix_signal_subprocess env self "term" false).
Proof.
  intros Hos H Hl. unfold notify. rewrite H, (poll_live p Hl), Hos.
  replace (set_process self (Some p)) with self; [reflexivity|].
  destruct self; simpl in *; now subst.
Qed.

Lemma terminate_live_posix (env : Env) (self : LoggingSubprocess) (p : Popen) :
  is_posix env = true -> _process self = Some p -> live p ->
  terminate env self = (self, _posix_signal_subprocess env self "kill" true).
Proof.
  intros Hos H Hl. unfold terminate. rewrite H, (poll_live p Hl), Hos.
  replace (set_process self (Some p)) with self; [reflexivity|].
  destruct self; simpl in *; now subst.
Qed.

(** C5. On a POSIX host, with a live spawned process, notify runs the relay
    exactly once, with signal name term and cascade flag False, and
    terminate runs it exactly once, with signal name kill and cascade flag
    True; both name the pid of the tracked process. *)
Theorem posix_notify_term_terminate_kill (env : Env)
    (self : LoggingSubprocess) (p : Popen) :
  is_posix env = true -> _process self = Some p -> live p ->
  exists prefix escalate,
    relay_calls (snd (snd (notify env self)))
    = [prefix ++ [POSIX_SIGNAL_SUBPROC_SCRIPT; str_int (pid p);
                  "term"; escalate; "False"]] /\
    relay_calls (snd (snd (terminate env self)))
    = [prefix ++ [POSIX_SIGNAL_SUBPROC_SCRIPT; str_int (pid p);
                  "kill"; escalate; "True"]].
Proof.
  intros Hos H Hl.
  rewrite (notify_live_posix env self p Hos H Hl).
  rewrite (terminate_live_posix env self p Hos H Hl).
  cbn [snd]. rewrite !(posix_signal_relay_calls env self p) by assumption.
  unfold posix_signal_cmd.
  destruct (_user self) as [u|].
  - eexists. exists "True". split; reflexivity.
  - exists []. exists "False". split; reflexivity.
Qed.

Lemma posix_notify_term_terminate_kill_witness :
  exists prefix escalate,
    relay_calls
      (snd (snd (notify Example.posix
                   (set_process (Example.handle ["sleep"; "5"] None)
                      (Some Example.spawned)))))
    = [prefix ++ [POSIX_SIGNAL_SUBPROC_SCRIPT; str_int 4242;
                  "term"; escalate; "False"]] /\
    relay_calls
      (snd (snd (terminate Example.posix
                   (set_process (Example.handle ["sleep"; "5"] None)
                      (Some Example.spawned)))))
    = [prefix ++ [POSIX_SIGNAL_SUBPROC_SCRIPT; str_int 4242;
                  "kill"; escalate; "True"]].
Proof.
  apply (posix_notify_term_terminate_kill Example.posix
           (set_process (Example.handle ["sleep"; "5"] None)
              (Some Example.spawned)) Example.spawned).
  - reflexivity.
  - reflexivity.
  - split; reflexivity.
Defined.

(** C6. On a POSIX host, with a live spawned process: when the configured
    principal is an account other than the invoking one, the relay command
    terminate runs begins with sudo -u <account> -i; when no principal is
    configured, or the principal is the invoking account, the command
    begins with the relay script itself. *)
Theorem terminate_elevates_iff_other_principal (env : Env)
    (self : LoggingSubprocess) (p : Popen) :
  is_posix env = true -> _process self = Some p -> live p ->
  (forall u, _user self = Some u -> user_name u <> getuser env ->
     relay_calls (snd (snd (terminate env self)))
     = [["sudo"; "-u"; user_name u; "-i";
         POSIX_SIGNAL_SUBPROC_SCRIPT; str_int (pid p);
         "kill"; "True"; "True"]]) /\
  (forall u, _user self = Some u -> user_name u = getuser env ->
     relay_calls (snd (snd (terminate env self)))
     = [[POSIX_SIGNAL_SUBPROC_SCRIPT; str_int (pid p);
         "kill"; "True"; "True"]]) /\
  (_user self = None ->
     relay_calls (snd (snd (terminate env self)))
     = [[POSIX_SIGNAL_SUBPROC_SCRIPT; str_int (pid p);
         "kill"; "False"; "True"]]).
Proof.
  intros Hos H Hl.
  rewrite (terminate_live_posix env self p Hos H Hl). cbn [snd].
  rewrite (posix_signal_relay_calls env self p) by assumption.
  unfold posix_signal_cmd.
  repeat split.
  - intros u Hu Hne. rewrite Hu.
    apply String.eqb_neq in Hne. rewrite Hne. reflexivity.
  - intros u Hu Heq. rewrite Hu.
    apply String.eqb_eq in Heq. rewrite Heq. reflexivity.
  - intros Hu. rewrite Hu. reflexivity.
Qed.

Lemma terminate_elevates_iff_other_principal_witness :
  relay_calls
    (snd (snd (terminate Example.posix
                 (set_process
                    (Example.handle ["sleep"; "5"]
                       (Some (PosixSessionUser "jobuser")))
                    (Some Example.spawned)))))
  = [["sudo"; "-u"; "jobuser"; "-i";
      POSIX_SIGNAL_SUBPROC_SCRIPT; "4242"; "kill"; "True"; "True"]].
Proof.
  refine (proj1 (terminate_elevates_iff_other_principal Example.posix
           (set_process
              (Example.handle ["sleep"; "5"] (Some (PosixSessionUser "jobuser")))
              (Some Example.spawned))
           Example.spawned _ _ _) (PosixSessionUser "jobuser") _ _).
  - reflexivity.
  - reflexivity.
  - split; reflexivity.
  - reflexivity.
  - simpl. discriminate.
Defined.

(** C9. The relay's escalate parameter is the text of the boolean
    "a principal is configured": True whenever a principal is configured,
    also when it is the invoking account (only the sudo prefix is left out
    then), and False exactly when none is configured. *)
Theorem relay_escalates_iff_principal_configured (env : Env)
    (self : LoggingSubprocess) (p : Popen) (signal : string) (flag : bool) :
  _process self = Some p ->
  exists prefix escalate,
    relay_calls (snd (_posix_signal_subprocess env self signal flag))
    = [prefix ++ [POSIX_SIGNAL_SUBPROC_SCRIPT; str_int (pid p);
                  signal; escalate; str_bool flag]] /\
    (escalate = "True" <-> _user self <> None) /\
    (escalate = "False" <-> _user self = None) /\
    (forall u, _user self = Some u -> user_name u = getuser env ->
       prefix = [] /\ escalate = "True").
Proof.
  intro H. rewrite (posix_signal_relay_calls env self p) by assumption.
  unfold posix_signal_cmd.
  destruct (_user self) as [u|].
  - eexists. exists "True". split; [reflexivity|].
    split; [split; [discriminate|reflexivity]|].
    split; [split; discriminate|].
    intros u' Hu Heq. inversion Hu; subst u'.
    apply String.eqb_eq in Heq. rewrite Heq. split; reflexivity.
  - exists []. exists "False". split; [reflexivity|].
    split; [split; [discriminate|congruence]|].
    split; [split; reflexivity|].
    intros u Hu. discriminate.
Qed.

Lemma relay_escalates_iff_principal_configured_witness :
  exists prefix escalate,
    relay_calls
      (snd (_posix_signal_subprocess Example.posix
              (set_process
                 (Example.handle ["sleep"; "5"]
                    (Some (PosixSessionUser "worker")))
                 (Some Example.spawned)) "term" false))
    = [prefix ++ [POSIX_SIGNAL_SUBPROC_SCRIPT; str_int 4242;
                  "term"; escalate; str_bool false]] /\
    (escalate = "True" <->
       Some (PosixSessionUser "worker") <> @None SessionUser) /\
    (escalate = "False" <->
       Some (PosixSessionUser "worker") = @None SessionUser) /\
    (forall u, Some (PosixSessionUser "worker") = Some u ->
       user_name u = "worker" -> prefix = [] /\ escalate = "True").
Proof.
  apply (relay_escalates_iff_principal_configured Example.posix
           (set_process
              (Example.handle ["sleep"; "5"] (Some (PosixSessionUser "worker")))
              (Some Example.spawned)) Example.spawned "term" false).
  reflexivity.
Defined.

(** ** run: general facts *)

Lemma run_steps_add (env : Env) (n m : nat) (c : Cfg) :
  run_steps env (n + m) c = run_steps env m (run_steps env n c).
Proof.
  revert c. induction n as [|n IH]; intro c; simpl; [reflexivity|apply IH].
Qed.

Lemma run_steps_finished (env : Env) (n : nat) (c : Cfg) :
  finished (pc c) = true -> run_steps env n c = c.
Proof.
  intro H. induction n as [|n IH]; simpl; [reflexivity|].
  replace (run_step env c) with c; [exact IH|].
  unfold run_step. destruct (pc c); try discriminate; reflexivity.
Qed.

Lemma set_process_same (self0 : LoggingSubprocess) (p : option Popen) :
  _process self0 = p -> set_process self0 p = self0.
Proof. destruct self0; simpl; intros ->; reflexivity. Qed.

Lemma start_subprocess_flags (env : Env) (self0 : LoggingSubprocess)
    (p : option Popen) (b1 b2 : bool) :
  _start_subprocess env
    (set_start_failed (set_has_started (set_process self0 p) b1) b2)
  = _start_subprocess env self0.
Proof. reflexivity. Qed.

Lemma start_try_no_callback (env : Env) (self0 : LoggingSubprocess) :
  callback_calls (snd (_start_subprocess_try env self0)) = O.
Proof.
  unfold _start_subprocess_try.
  destruct (is_posix env); simpl.
  - reflexivity.
  - destruct (encoded_start_job_wrapper env (_args self0) (_user self0));
      reflexivity.
Qed.

(** A spawn that fails with an OS error: [run] sets the latch, then the
    flag, calls the hook and returns what the hook returns. *)
Lemma run_steps_S (env : Env) (n : nat) (c : Cfg) :
  run_steps env (S n) c = run_steps env n (run_step env c).
Proof. reflexivity. Qed.

(** The hook statement and the return that follows it, from either place
    where [run] has them. *)
Lemma run_steps_callback (env : Env) (c : Cfg) (next : PC) :
  (pc c = AtFailCallback /\ next = AtFailReturn) \/
  (pc c = AtCallback /\ next = AtReturn) ->
  run_steps env 2 c
  = {| pc := match fst (callback_outcome (self c)) with
             | Ok _ => Returned
             | Raise e => Raised e
             end;
       self := self c;
       trace := trace c ++ snd (callback_outcome (self c)) |}.
Proof.
  intros [[Hpc _]|[Hpc _]]; rewrite !run_steps_S; cbn [run_steps];
    unfold run_step at 2; rewrite Hpc;
    unfold call_callback, callback_outcome;
    destruct (_callback (self c)) as [[[] [[]|e]]|];
    cbn; rewrite ?app_nil_r; reflexivity.
Qed.

Lemma callback_outcome_finished (self0 : LoggingSubprocess) :
  finished match fst (callback_outcome self0) with
           | Ok _ => Returned
           | Raise e => Raised e
           end = true.
Proof. destruct (fst (callback_outcome self0)); reflexivity. Qed.

Lemma callback_outcome_result (self0 : LoggingSubprocess) (s : LoggingSubprocess)
    (t : list Event) :
  match match fst (callback_outcome self0) with
        | Ok _ => Returned
        | Raise e => Raised e
        end with
  | Returned => Some (Ok tt, s, t)
  | Raised e => Some (Raise e, s, t)
  | _ => None
  end = Some (fst (callback_outcome self0), s, t).
Proof. destruct (fst (callback_outcome self0)) as [[]|e]; reflexivity. Qed.

Lemma run_start_failed (env : Env) (self0 : LoggingSubprocess)
    (t : list Event) (fuel : nat) :
  _process self0 = None ->
  _start_subprocess env self0 = (Ok None, t) ->
  run env (7 + fuel) self0
  = Some (fst (callback_outcome self0),
          set_start_failed (set_has_started self0 true) true,
          t ++ snd (callback_outcome self0)).
Proof.
  intros Hp Hs. unfold run.
  assert (H5 : run_steps env 5 (enter_run self0 []) =
    {| pc := AtFailCallback;
       self := set_start_failed (set_has_started self0 true) true;
       trace := t |}).
  { simpl. unfold run_step at 5. simpl. rewrite Hp.
    unfold run_step at 4. simpl. rewrite Hs. rewrite (set_process_same _ _ Hp).
    unfold run_step at 3. simpl.
    unfold run_step at 2. simpl. rewrite Hp.
    unfold run_step. simpl. reflexivity. }
  change (7 + fuel)%nat with (5 + (2 + fuel))%nat.
  rewrite !run_steps_add, H5.
  rewrite (run_steps_callback env _ AtFailReturn) by (left; split; reflexivity).
  rewrite run_steps_finished by apply callback_outcome_finished.
  cbn [pc self trace].
  exact (callback_outcome_result self0 _ _).
Qed.

(** A handle that has a process object refuses to run. *)
Lemma run_refused_with_process (env : Env) (self0 : LoggingSubprocess)
    (p : Popen) (fuel : nat) :
  _process self0 = Some p ->
  run env (1 + fuel) self0 = Some (Raise already_run, self0, []).
Proof.
  intro Hp. unfold run.
  assert (H1 : run_step env (enter_run self0 []) =
               {| pc := Raised already_run; self := self0; trace := [] |}).
  { unfold run_step. simpl. rewrite Hp. reflexivity. }
  simpl run_steps. rewrite H1. rewrite run_steps_finished; reflexivity.
Qed.

Lemma init_ok (env : Env) (args : list string) (encoding : string)
    (user : option SessionUser) (callback : option Callback)
    (h : LoggingSubprocess) :
  __init__ env args encoding user callback = Ok h ->
  h = {| _process := None; _args := args; _encoding := encoding;
         _user := user; _callback := callback;
         _start_failed := false; _has_started := false |}.
Proof.
  unfold __init__.
  destruct (Z.of_nat (length args) <? 1); [discriminate|].
  destruct (match user with
            | Some u => String.eqb (os_name env) "posix"
                        && negb (isinstance_PosixSessionUser u)
            | None => false
            end); [discriminate|].
  destruct (match user with
            | Some u => is_windows env && negb (isinstance_WindowsSessionUser u)
            | None => false
            end); [discriminate|].
  congruence.
Qed.

Lemma start_subprocess_raise (env : Env) (self0 : LoggingSubprocess)
    (e : PyExc) (t : list Event) :
  _start_subprocess_try env self0 = (Raise e, t) ->
  _start_subprocess env self0
  = if is_OSError e
    then (Ok None,
          t ++ [EvLog INFO ("Process failed to start: " ++ exc_msg e)%string])
    else (Raise e, t).
Proof. intro H. unfold _start_subprocess. rewrite H. reflexivity. Qed.

(** An exception out of [_start_subprocess] leaves [run] at line 141: the
    handle is as it was. *)
Lemma run_start_raises (env : Env) (self0 : LoggingSubprocess)
    (e : PyExc) (t : list Event) (fuel : nat) :
  _process self0 = None ->
  _start_subprocess env self0 = (Raise e, t) ->
  run env (2 + fuel) self0 = Some (Raise e, self0, t).
Proof.
  intros Hp Hs. unfold run.
  assert (H2 : run_steps env 2 (enter_run self0 []) =
               {| pc := Raised e; self := self0; trace := t |}).
  { simpl. unfold run_step at 2. simpl. rewrite Hp.
    unfold run_step. simpl. rewrite Hs. reflexivity. }
  rewrite run_steps_add, H2. rewrite run_steps_finished; reflexivity.
Qed.

(** ** Failure to start *)

(** C10. When creating the process raises, on a freshly constructed handle:
    an OSError is turned into the start-failed state ([run] finishes, latch
    set, flag set, hook called if there is one); any other exception comes
    out of [run] unchanged, and then the handle is exactly as constructed,
    so the latch is not set (a caller of wait_until_started without a
    timeout stays blocked) and the flag is false, and the hook has not been
    called. *)
Theorem only_oserror_becomes_start_failed (env : Env) (args : list string)
    (encoding : string) (user : option SessionUser)
    (callback : option Callback) (self0 : LoggingSubprocess)
    (e : PyExc) (t : list Event) (fuel : nat) :
  __init__ env args encoding user callback = Ok self0 ->
  _start_subprocess_try env self0 = (Raise e, t) ->
  if is_OSError e then
    exists self1 t1,
      run env (7 + fuel) self0
      = Some (fst (callback_outcome self0), self1, t1) /\
      has_started self1 = true /\ failed_to_start self1 = true
  else
    exists self1 t1,
      run env (2 + fuel) self0 = Some (Raise e, self1, t1) /\
      self1 = self0 /\
      has_started self1 = false /\ failed_to_start self1 = false /\
      wait_until_started_returns self1 None = false /\
      callback_calls t1 = O.
Proof.
  intros Hinit Htry.
  apply init_ok in Hinit.
  assert (Hp : _process self0 = None) by (subst self0; reflexivity).
  pose proof (start_subprocess_raise env self0 e t Htry) as Hs.
  destruct (is_OSError e).
  - eexists. eexists. split.
    + apply (run_start_failed env self0 _ fuel Hp Hs).
    + split; reflexivity.
  - exists self0, t. split.
    + apply (run_start_raises env self0 e t fuel Hp Hs).
    + split; [reflexivity|].
      split; [subst self0; reflexivity|].
      split; [subst self0; reflexivity|].
      split; [subst self0; reflexivity|].
      pose proof (start_try_no_callback env self0) as Hc.
      rewrite Htry in Hc. exact Hc.
Qed.

Lemma only_oserror_becomes_start_failed_witness :
  exists self1 t1,
    run Example.posix 2 (Example.handle ["nul"; "x"] None)
    = Some (Raise Example.null_byte, self1, t1) /\
    self1 = Example.handle ["nul"; "x"] None /\
    has_started self1 = false /\ failed_to_start self1 = false /\
    wait_until_started_returns self1 None = false /\
    callback_calls t1 = O.
Proof.
  apply (only_oserror_becomes_start_failed Example.posix ["nul"; "x"]
           "utf-8" None (Some plain_callback)
           (Example.handle ["nul"; "x"] None) Example.null_byte
           [EvLog INFO "Running command nul x";
            EvPopen {| pa_args := ["nul"; "x"]; pa_stdin := DEVNULL;
                       pa_stdout := PIPE; pa_stderr := STDOUT;
                       pa_encoding := "utf-8"; pa_start_new_session := true;
                       pa_creationflags := None |}] 0%nat).
  - reflexivity.
  - reflexivity.
Defined.

(** C2 (what the code does). When spawning fails with an OSError, the
    third statement of [run] has set the latch while the start-failed flag
    is still false: the latch is released first and the flag is set by a
    later statement.  A thread woken by the latch at that moment reads
    [failed_to_start] as false and [is_running] as false. *)
Theorem latch_set_while_start_failed_false (env : Env)
    (self0 : LoggingSubprocess) (e : PyExc) (t : list Event) :
  _process self0 = None ->
  _start_failed self0 = false ->
  _start_subprocess_try env self0 = (Raise e, t) ->
  is_OSError e = true ->
  pc (run_steps env 3 (enter_run self0 [])) = AtCheckProcess /\
  has_started (self (run_steps env 3 (enter_run self0 []))) = true /\
  wait_until_started_returns
    (self (run_steps env 3 (enter_run self0 []))) None = true /\
  failed_to_start (self (run_steps env 3 (enter_run self0 []))) = false /\
  is_running (self (run_steps env 3 (enter_run self0 []))) = false /\
  failed_to_start (self (run_steps env 5 (enter_run self0 []))) = true.
Proof.
  intros Hp Hf Htry He.
  pose proof (start_subprocess_raise env self0 e t Htry) as Hs.
  rewrite He in Hs.
  assert (H3 : run_steps env 3 (enter_run self0 []) =
    {| pc := AtCheckProcess; self := set_has_started self0 true;
       trace := t ++ [EvLog INFO ("Process failed to start: " ++ exc_msg e)%string]
    |}).
  { simpl. unfold run_step at 3. simpl. rewrite Hp.
    unfold run_step at 2. simpl. rewrite Hs.
    rewrite (set_process_same _ _ Hp). reflexivity. }
  change 5%nat with (3 + 2)%nat. rewrite run_steps_add. rewrite H3.
  split; [reflexivity|]. split; [reflexivity|]. split; [reflexivity|].
  split; [exact Hf|].
  split; [unfold is_running; cbn [self set_has_started _process];
          now rewrite Hp|].
  simpl. unfold run_step at 2. simpl. rewrite Hp. reflexivity.
Qed.

Lemma latch_set_while_start_failed_false_witness :
  pc (run_steps Example.posix 3
        (enter_run (Example.handle ["missing"] None) [])) = AtCheckProcess /\
  has_started (self (run_steps Example.posix 3
        (enter_run (Example.handle ["missing"] None) []))) = true /\
  wait_until_started_returns (self (run_steps Example.posix 3
        (enter_run (Example.handle ["missing"] None) []))) None = true /\
  failed_to_start (self (run_steps Example.posix 3
        (enter_run (Example.handle ["missing"] None) []))) = false /\
  is_running (self (run_steps Example.posix 3
        (enter_run (Example.handle ["missing"] None) []))) = false /\
  failed_to_start (self (run_steps Example.posix 5
        (enter_run (Example.handle ["missing"] None) []))) = true.
Proof.
  apply (latch_set_while_start_failed_false Example.posix
           (Example.handle ["missing"] None) Example.not_found
           [EvLog INFO "Running command missing";
            EvPopen {| pa_args := ["missing"]; pa_stdin := DEVNULL;
                       pa_stdout := PIPE; pa_stderr := STDOUT;
                       pa_encoding := "utf-8"; pa_start_new_session := true;
                       pa_creationflags := None |}]).
  - reflexivity.
  - reflexivity.
  - reflexivity.
  - reflexivity.
Defined.

(** ** Running twice *)

(** C1 (what the code does). After a first [run] whose spawn failed with an
    OSError the handle still has no process object, and a second [run] is
    not refused: it attempts the spawn again and calls the completion hook
    a second time, ending exactly as the first call did. *)
Theorem second_run_after_failed_start_runs_again (env : Env)
    (self0 : LoggingSubprocess) (t : list Event) (fuel : nat) :
  _process self0 = None ->
  _start_subprocess env self0 = (Ok None, t) ->
  exists self1,
    run env (7 + fuel) self0
    = Some (fst (callback_outcome self0), self1,
            t ++ snd (callback_outcome self0)) /\
    _process self1 = None /\
    run env (7 + fuel) self1
    = Some (fst (callback_outcome self0), self1,
            t ++ snd (callback_outcome self0)).
Proof.
  intros Hp Hs.
  exists (set_start_failed (set_has_started self0 true) true).
  split; [apply (run_start_failed env self0 t fuel Hp Hs)|].
  split; [exact Hp|].
  apply (run_start_failed env
           (set_start_failed (set_has_started self0 true) true) t fuel Hp).
  exact Hs.
Qed.

Lemma second_run_after_failed_start_runs_again_witness :
  exists self1,
    run Example.posix 7 (Example.handle ["missing"] None)
    = Some (Ok tt, self1,
            [EvLog INFO "Running command missing";
             EvPopen {| pa_args := ["missing"]; pa_stdin := DEVNULL;
                        pa_stdout := PIPE; pa_stderr := STDOUT;
                        pa_encoding := "utf-8"; pa_start_new_session := true;
                        pa_creationflags := None |};
             EvLog INFO
               "Process failed to start: [Errno 2] No such file or directory";
             EvCallback]) /\
    _process self1 = None /\
    run Example.posix 7 self1
    = Some (Ok tt, self1,
            [EvLog INFO "Running command missing";
             EvPopen {| pa_args := ["missing"]; pa_stdin := DEVNULL;
                        pa_stdout := PIPE; pa_stderr := STDOUT;
                        pa_encoding := "utf-8"; pa_start_new_session := true;
                        pa_creationflags := None |};
             EvLog INFO
               "Process failed to start: [Errno 2] No such file or directory";
             EvCallback]).
Proof.
  apply (second_run_after_failed_start_runs_again Example.posix
           (Example.handle ["missing"] None)
           [EvLog INFO "Running command missing";
            EvPopen {| pa_args := ["missing"]; pa_stdin := DEVNULL;
                       pa_stdout := PIPE; pa_stderr := STDOUT;
                       pa_encoding := "utf-8"; pa_start_new_session := true;
                       pa_creationflags := None |};
            EvLog INFO
              "Process failed to start: [Errno 2] No such file or directory"]
           0%nat).
  - reflexivity.
  - reflexivity.
Defined.

(** ** The stream functions *)

Section Readline.

Lemma ends_in_LF_last (s : string) :
  ends_in_LF s = true <-> last_char s = Some LF.
Proof.
  induction s as [|c s IH]; simpl.
  - split; discriminate.
  - destruct s as [|d s].
    + split; intro H.
      * apply Ascii.eqb_eq in H. now subst.
      * inversion H. apply Ascii.eqb_refl.
    + exact IH.
Qed.

(** Reading translates line endings and otherwise takes the text as it
    comes. *)
Lemma readline_upto_app (n : nat) (s : string) :
  (fst (readline_upto n s) ++ universal_newlines (snd (readline_upto n s)))%string
  = universal_newlines s.
Proof.
  revert s. induction n as [|n IH]; intros [|c s]; try reflexivity.
  cbn [readline_upto universal_newlines].
  destruct (Ascii.eqb c CR) eqn:Hcr.
  - cbn. f_equal. destruct s as [|d s]; [reflexivity|].
    destruct (Ascii.eqb d LF); reflexivity.
  - destruct (Ascii.eqb c LF); [reflexivity|].
    specialize (IH s). destruct (readline_upto n s) as [line rest].
    cbn in *. now rewrite IH.
Qed.

Lemma readline_upto_length (n : nat) (s : string) :
  (String.length (fst (readline_upto n s)) <= n)%nat.
Proof.
  revert s. induction n as [|n IH]; intros [|c s]; simpl; try lia.
  destruct (Ascii.eqb c CR); simpl; [lia|].
  destruct (Ascii.eqb c LF); simpl; [lia|].
  specialize (IH s). destruct (readline_upto n s) as [line rest].
  simpl in *. lia.
Qed.

(** With a positive size, nothing is read at the end of the text and only
    there. *)
Lemma readline_upto_empty (n : nat) (s : string) :
  (0 < n)%nat ->
  (fst (readline_upto n s) = EmptyString <-> s = EmptyString).
Proof.
  intro Hn. destruct n as [|n]; [lia|]. destruct s as [|c s]; simpl.
  - split; reflexivity.
  - destruct (Ascii.eqb c CR); simpl; [split; discriminate|].
    destruct (Ascii.eqb c LF); simpl; [split; discriminate|].
    destruct (readline_upto n s); simpl. split; discriminate.
Qed.

Lemma readline_upto_rest (n : nat) (s : string) :
  (0 < n)%nat -> s <> EmptyString ->
  (String.length (snd (readline_upto n s)) < String.length s)%nat.
Proof.
  revert s. induction n as [|n IH]; intros s Hn Hs; [lia|].
  destruct s as [|c s]; [contradiction|]. simpl.
  destruct (Ascii.eqb c CR); simpl.
  - destruct s as [|d s]; simpl; [lia|].
    destruct (Ascii.eqb d LF); simpl; lia.
  - destruct (Ascii.eqb c LF); simpl; [lia|].
    destruct n as [|n].
    + simpl. lia.
    + destruct s as [|d s]; [simpl; lia|].
      assert (H := IH (String d s) ltac:(lia) ltac:(discriminate)).
      destruct (readline_upto (S n) (String d s)) as [line rest].
      simpl in *. lia.
Qed.

(** A read is a run of characters other than line feed and carriage
    return, followed or not by the line feed it stopped at. *)
Lemma readline_upto_body (n : nat) (s : string) :
  exists body,
    has_char LF body = false /\ has_char CR body = false /\
    (fst (readline_upto n s) = body \/
     fst (readline_upto n s) = (body ++ String LF EmptyString)%string).
Proof.
  revert s. induction n as [|n IH]; intros [|c s]; simpl;
    try (exists EmptyString; split; [reflexivity|];
         split; [reflexivity|left; reflexivity]).
  destruct (Ascii.eqb c CR) eqn:Hcr; simpl.
  - exists EmptyString. split; [reflexivity|].
    split; [reflexivity|right; reflexivity].
  - destruct (Ascii.eqb c LF) eqn:Hc; simpl.
    + exists EmptyString. apply Ascii.eqb_eq in Hc. subst c.
      split; [reflexivity|]. split; [reflexivity|right; reflexivity].
    + destruct (IH s) as (body & Hb & Hb' & Hs).
      destruct (readline_upto n s) as [line rest]. simpl in *.
      exists (String c body). simpl. rewrite Hc, Hcr, Hb, Hb'.
      split; [reflexivity|]. split; [reflexivity|].
      destruct Hs as [-> | ->]; auto.
Qed.

Lemma last_char_app_LF (body : string) :
  last_char (body ++ String LF EmptyString) = Some LF.
Proof.
  induction body as [|c body IH]; [reflexivity|].
  simpl. destruct (body ++ String LF "")%string eqn:E; [|exact IH].
  destruct body; discriminate.
Qed.

(** A read ends with the line feed it stopped at, or holds none. *)
Lemma readline_upto_shape (n : nat) (s : string) :
  last_char (fst (readline_upto n s)) = Some LF \/
  has_char LF (fst (readline_upto n s)) = false.
Proof.
  destruct (readline_upto_body n s) as (body & Hb & _ & [-> | ->]).
  - now right.
  - left. apply last_char_app_LF.
Qed.

(** The cap: as many characters as the size, none of them a line feed or a
    carriage return, are returned as one read, whatever follows. *)
Lemma readline_upto_capped (a b : string) :
  has_char LF a = false -> has_char CR a = false ->
  readline_upto (String.length a) (a ++ b) = (a, b).
Proof.
  induction a as [|c a IH]; simpl; intros H H'.
  - destruct b; reflexivity.
  - apply orb_false_elim in H. destruct H as [Hc Ha].
    apply orb_false_elim in H'. destruct H' as [Hc' Ha'].
    rewrite Hc, Hc', (IH Ha Ha'). reflexivity.
Qed.

(** A whole line shorter than the size, with its line feed, is one read. *)
Lemma readline_upto_line (l rest : string) :
  forall n, has_char LF l = false -> has_char CR l = false ->
  (String.length l < n)%nat ->
  readline_upto n (l ++ String LF rest)
  = ((l ++ String LF EmptyString)%string, rest).
Proof.
  induction l as [|c l IH]; intros n Hl Hl' Hn.
  - destruct n as [|n]; [simpl in Hn; lia|]. reflexivity.
  - destruct n as [|n]; [simpl in Hn; lia|]. simpl in *.
    apply orb_false_elim in Hl. destruct Hl as [Hc Hl].
    apply orb_false_elim in Hl'. destruct Hl' as [Hc' Hl'].
    rewrite Hc, Hc', (IH n Hl Hl' ltac:(lia)). reflexivity.
Qed.

Lemma rstrip_spec (l : string) :
  exists suffix,
    l = (rstrip l ++ suffix)%string /\
    only_terminators suffix = true /\
    last_char (rstrip l) <> Some LF /\
    last_char (rstrip l) <> Some CR.
Proof.
  induction l as [|c l (suf & Heq & Hsuf & Hlf & Hcr)]; simpl.
  - exists EmptyString. repeat split; discriminate.
  - destruct (rstrip l) as [|d r] eqn:Hr.
    + simpl in Heq. subst suf.
      destruct (Ascii.eqb c LF || Ascii.eqb c CR) eqn:Hc.
      * exists (String c l). simpl. rewrite Hc, Hsuf.
        repeat split; discriminate.
      * exists l. simpl. apply orb_false_elim in Hc. destruct Hc as [H1 H2].
        apply Ascii.eqb_neq in H1, H2.
        repeat split; try assumption; congruence.
    + exists suf. simpl. rewrite Heq at 1. simpl.
      repeat split; assumption.
Qed.

Variable size : Z.
Hypothesis size_pos : 0 < size.

(** When decoding does not fail, [readline] is the read itself. *)
Lemma readline_no_error (s : string) :
  readline size s None = Ok (readline_upto (Z.to_nat size) s).
Proof.
  unfold readline. destruct (readline_upto (Z.to_nat size) s) as [line rest].
  destruct (line_complete (Z.to_nat size) line); reflexivity.
Qed.

Lemma readline_ok (s : string) (err : option PyExc) (line rest : string) :
  readline size s err = Ok (line, rest) ->
  readline_upto (Z.to_nat size) s = (line, rest).
Proof.
  unfold readline. destruct (readline_upto (Z.to_nat size) s) as [l r].
  destruct (line_complete (Z.to_nat size) l); [congruence|].
  destruct err; [discriminate|congruence].
Qed.

(** [readline] raises nothing but the pending decoding error, and only on a
    read that ran into the end of the decoded text without being complete. *)
Lemma readline_raise (s : string) (err : option PyExc) (e : PyExc) :
  readline size s err = Raise e ->
  err = Some e /\
  line_complete (Z.to_nat size) (fst (readline_upto (Z.to_nat size) s)) = false.
Proof.
  unfold readline. destruct (readline_upto (Z.to_nat size) s) as [l r].
  cbn [fst]. destruct (line_complete (Z.to_nat size) l); [discriminate|].
  destruct err; [|discriminate]. intro H. inversion H. auto.
Qed.

(** The empty string is returned at the end of the child's output and only
    there: not where the text ends because decoding failed. *)
Lemma readline_ok_empty (s : string) (err : option PyExc) (rest : string) :
  readline size s err = Ok (EmptyString, rest) <->
  s = EmptyString /\ rest = EmptyString /\ err = None.
Proof.
  split.
  - intro H. pose proof (readline_ok s err _ _ H) as Hu.
    pose proof (readline_upto_empty (Z.to_nat size) s ltac:(lia)) as He.
    rewrite Hu in He. cbn [fst] in He.
    assert (Hs : s = EmptyString) by now apply He.
    subst s. split; [reflexivity|].
    unfold readline in H.
    destruct (Z.to_nat size) as [|n] eqn:Hn; [lia|].
    cbn in H. destruct err; [discriminate|].
    inversion H. auto.
  - intros (-> & -> & ->). unfold readline.
    destruct (Z.to_nat size) as [|n] eqn:Hn; [lia|]. reflexivity.
Qed.

Lemma lines_of_S (n : nat) (s : string) (err : option PyExc) :
  lines_of (S n) size s err
  = match readline size s err with
    | Ok (line, rest) =>
        if String.eqb line "" then [] else line :: lines_of n size rest err
    | Raise _ => []
    end.
Proof. reflexivity. Qed.

(** When decoding does not fail, the reads together are the whole text,
    line endings translated. *)
Lemma lines_of_concat (n : nat) (s : string) :
  (String.length s <= n)%nat ->
  string_concat (lines_of (S n) size s None) = universal_newlines s.
Proof.
  revert s. induction n as [|n IH]; intros s Hlen.
  - destruct s; [|simpl in Hlen; lia].
    rewrite lines_of_S, readline_no_error.
    destruct (Z.to_nat size); reflexivity.
  - rewrite lines_of_S, readline_no_error.
    pose proof (readline_upto_app (Z.to_nat size) s) as Happ.
    pose proof (readline_upto_empty (Z.to_nat size) s ltac:(lia)) as Hemp.
    pose proof (readline_upto_rest (Z.to_nat size) s ltac:(lia)) as Hrest.
    destruct (readline_upto (Z.to_nat size) s) as [line rest].
    cbn [fst snd] in *.
    destruct (String.eqb line "") eqn:Hl.
    + apply String.eqb_eq in Hl.
      assert (Hs : s = EmptyString) by now apply Hemp.
      subst s. reflexivity.
    + apply String.eqb_neq in Hl.
      assert (Hs : s <> EmptyString) by (intro H; apply Hl, Hemp, H).
      specialize (Hrest Hs).
      change (string_concat (line :: lines_of (S n) size rest None))
        with (line ++ string_concat (lines_of (S n) size rest None))%string.
      rewrite IH by lia. exact Happ.
Qed.

Lemma lines_of_Forall (n : nat) (s : string) (err : option PyExc) :
  Forall (fun line =>
            line <> EmptyString /\
            Z.of_nat (String.length line) <= size /\
            has_char CR line = false /\
            (last_char line = Some LF \/ has_char LF line = false))
         (lines_of n size s err).
Proof.
  revert s. induction n as [|n IH]; intro s; [constructor|].
  rewrite lines_of_S.
  destruct (readline size s err) as [[line rest]|e] eqn:Hr; [|constructor].
  apply readline_ok in Hr.
  pose proof (readline_upto_length (Z.to_nat size) s) as Hlen.
  pose proof (readline_upto_shape (Z.to_nat size) s) as Hshape.
  destruct (readline_upto_body (Z.to_nat size) s) as (body & _ & Hcr & Hb).
  rewrite Hr in *. cbn [fst snd] in *.
  destruct (String.eqb line "") eqn:Hl; [constructor|].
  apply String.eqb_neq in Hl.
  constructor; [|apply IH].
  split; [exact Hl|]. split; [lia|]. split; [|exact Hshape].
  destruct Hb as [-> | ->]; [exact Hcr|].
  clear - Hcr. induction body as [|c body IH]; [reflexivity|].
  simpl in *. apply orb_false_elim in Hcr. destruct Hcr as [H1 H2].
  now rewrite H1, IH.
Qed.

Lemma readline_capped (a b : string) (err : option PyExc) :
  Z.of_nat (String.length a) = size ->
  has_char LF a = false -> has_char CR a = false ->
  readline size (a ++ b) err = Ok (a, b).
Proof.
  intros Hlen H H'. unfold readline. rewrite <- Hlen, Nat2Z.id.
  rewrite (readline_upto_capped a b H H').
  unfold line_complete. rewrite Nat.eqb_refl, orb_true_r. reflexivity.
Qed.

End Readline.

(** A character is not a byte: a read of 64000 characters can take 128000
    bytes of the child's output. *)
Lemma utf8_length_replicate (n : nat) (c : ascii) :
  utf8_length (replicate n c) = (n * utf8_size c)%nat.
Proof. induction n as [|n IH]; simpl; [reflexivity|now rewrite IH]. Qed.

Lemma replicate_length (n : nat) (c : ascii) :
  String.length (replicate n c) = n.
Proof. induction n as [|n IH]; simpl; [reflexivity|now rewrite IH]. Qed.

Lemma replicate_has_char (n : nat) (c d : ascii) :
  Ascii.eqb c d = false -> has_char d (replicate n c) = false.
Proof.
  intro H. induction n as [|n IH]; simpl; [reflexivity|now rewrite H, IH].
Qed.

Lemma capped_read_of_two_byte_characters (b : string) (err : option PyExc) :
  readline LOG_LINE_MAX_LENGTH
    (replicate (Z.to_nat LOG_LINE_MAX_LENGTH) "233"%char ++ b) err
  = Ok (replicate (Z.to_nat LOG_LINE_MAX_LENGTH) "233"%char, b) /\
  Z.of_nat (utf8_length
              (replicate (Z.to_nat LOG_LINE_MAX_LENGTH) "233"%char))
  = 128000.
Proof.
  split.
  - apply readline_capped.
    + rewrite replicate_length. apply Z2Nat.id.
      unfold LOG_LINE_MAX_LENGTH. lia.
    + now apply replicate_has_char.
    + now apply replicate_has_char.
  - rewrite utf8_length_replicate.
    change (utf8_size "233"%char) with 2%nat.
    rewrite Nat2Z.inj_mul, Z2Nat.id by (unfold LOG_LINE_MAX_LENGTH; lia).
    reflexivity.
Qed.

(** ** run: streaming the output *)

Lemma log_line_max_length_pos : 0 < LOG_LINE_MAX_LENGTH.
Proof. unfold LOG_LINE_MAX_LENGTH. lia. Qed.

Lemma step_readline (env : Env) (c : Cfg) (p : Popen) (line rest : string) :
  pc c = AtReadline ->
  _process (self c) = Some p ->
  readline LOG_LINE_MAX_LENGTH (stdout p) (stdout_error p) = Ok (line, rest) ->
  run_step env c
  = {| pc := if String.eqb line "" then AtWait else AtLogLine line;
       self := set_process (self c) (Some (set_stdout p rest));
       trace := trace c ++ [EvReadline LOG_LINE_MAX_LENGTH] |}.
Proof.
  intros Hpc Hp Hr. unfold run_step. rewrite Hpc, Hp, Hr. reflexivity.
Qed.

Lemma step_readline_raise (env : Env) (c : Cfg) (p : Popen) (e : PyExc) :
  pc c = AtReadline ->
  _process (self c) = Some p ->
  readline LOG_LINE_MAX_LENGTH (stdout p) (stdout_error p) = Raise e ->
  run_step env c
  = {| pc := Raised e; self := self c;
       trace := trace c ++ [EvReadline LOG_LINE_MAX_LENGTH] |}.
Proof.
  intros Hpc Hp Hr. unfold run_step. rewrite Hpc, Hp, Hr. reflexivity.
Qed.

Lemma step_logline (env : Env) (c : Cfg) (line : string) :
  pc c = AtLogLine line ->
  run_step env c
  = {| pc := AtReadline; self := self c;
       trace := trace c ++ [EvLog INFO (rstrip line)] |}.
Proof. intros Hpc. unfold run_step. rewrite Hpc. reflexivity. Qed.

Lemma set_stdout_same (p : Popen) : set_stdout p (stdout p) = p.
Proof. destruct p; reflexivity. Qed.

(** The loop of lines 161 to 163, from any state at its head.  When the
    child's output decodes, it reaches line 165 with the pipe empty, having
    logged the lines of the pipe; when decoding fails, it logs the lines
    read before that and the exception leaves [run]. *)
Lemma read_loop (env : Env) (n : nat) :
  forall (c : Cfg) (p : Popen),
    (String.length (stdout p) <= n)%nat ->
    pc c = AtReadline ->
    _process (self c) = Some p ->
    exists k rest,
      run_steps env k c
      = {| pc := match stdout_error p with
                 | None => AtWait
                 | Some e => Raised e
                 end;
           self := set_process (self c) (Some (set_stdout p rest));
           trace := trace c ++
             stream_events (lines_of (S n) LOG_LINE_MAX_LENGTH (stdout p)
                              (stdout_error p)) |} /\
      (stdout_error p = None -> rest = EmptyString).
Proof.
  induction n as [|n IH]; intros c p Hlen Hpc Hp;
    rewrite (lines_of_S LOG_LINE_MAX_LENGTH);
    destruct (readline LOG_LINE_MAX_LENGTH (stdout p) (stdout_error p))
      as [[line rest]|e] eqn:Hr.
  - (* no text left: the read returns the empty string *)
    pose proof (readline_ok _ _ _ _ _ Hr) as Hu.
    assert (Hs : stdout p = EmptyString)
      by (destruct (stdout p); [reflexivity|simpl in Hlen; lia]).
    assert (Hl : line = EmptyString).
    { pose proof (readline_upto_empty (Z.to_nat LOG_LINE_MAX_LENGTH)
                    (stdout p)
                    ltac:(pose proof log_line_max_length_pos; lia)) as He.
      rewrite Hu in He. cbn [fst] in He. now apply He. }
    subst line.
    apply (readline_ok_empty _ log_line_max_length_pos) in Hr.
    destruct Hr as (_ & -> & Herr).
    exists 1%nat, EmptyString. split; [|reflexivity].
    simpl run_steps.
    rewrite (step_readline env c p "" "" Hpc Hp)
      by (apply (readline_ok_empty _ log_line_max_length_pos);
          repeat split; assumption).
    rewrite Herr. reflexivity.
  - apply (readline_raise _) in Hr. destruct Hr as [Herr Hinc].
    exists 1%nat, (stdout p). split; [|congruence].
    simpl run_steps.
    rewrite (step_readline_raise env c p e Hpc Hp).
    + rewrite Herr, set_stdout_same, (set_process_same _ _ Hp). reflexivity.
    + unfold readline.
      destruct (readline_upto (Z.to_nat LOG_LINE_MAX_LENGTH) (stdout p))
        as [l r]. cbn [fst] in Hinc. rewrite Hinc, Herr. reflexivity.
  - pose proof (readline_ok _ _ _ _ _ Hr) as Hu.
    pose proof (readline_upto_empty (Z.to_nat LOG_LINE_MAX_LENGTH) (stdout p)
                  ltac:(pose proof log_line_max_length_pos; lia)) as Hemp.
    pose proof (readline_upto_rest (Z.to_nat LOG_LINE_MAX_LENGTH) (stdout p)
                  ltac:(pose proof log_line_max_length_pos; lia)) as Hrest.
    rewrite Hu in Hemp, Hrest. cbn [fst snd] in Hemp, Hrest.
    destruct (String.eqb line "") eqn:Hl.
    + apply String.eqb_eq in Hl. subst line.
      pose proof Hr as Hr'.
      apply (readline_ok_empty _ log_line_max_length_pos) in Hr'.
      destruct Hr' as (_ & -> & Herr).
      exists 1%nat, EmptyString. split; [|reflexivity].
      simpl run_steps. rewrite (step_readline env c p "" "" Hpc Hp Hr).
      rewrite Herr. reflexivity.
    + apply String.eqb_neq in Hl.
      assert (Hs : stdout p <> EmptyString) by (intro H; apply Hl, Hemp, H).
      specialize (Hrest Hs).
      set (c2 := {| pc := AtReadline;
                    self := set_process (self c) (Some (set_stdout p rest));
                    trace := (trace c ++ [EvReadline LOG_LINE_MAX_LENGTH])
                             ++ [EvLog INFO (rstrip line)] |}).
      destruct (IH c2 (set_stdout p rest)) as (k & rest' & Hk & Hnone).
      * simpl. lia.
      * reflexivity.
      * reflexivity.
      * exists (2 + k)%nat, rest'. split; [|exact Hnone].
        rewrite run_steps_add.
        assert (H2 : run_steps env 2 c = c2).
        { simpl. rewrite (step_readline env c p line rest Hpc Hp Hr).
          apply String.eqb_neq in Hl. rewrite Hl.
          rewrite step_logline with (line := line); reflexivity. }
        rewrite H2, Hk. f_equal.
        unfold stream_events, c2. simpl.
        rewrite <- !app_assoc. reflexivity.
  - apply (readline_raise _) in Hr. destruct Hr as [Herr Hinc].
    exists 1%nat, (stdout p). split; [|congruence].
    simpl run_steps.
    rewrite (step_readline_raise env c p e Hpc Hp).
    + rewrite Herr, set_stdout_same, (set_process_same _ _ Hp). reflexivity.
    + unfold readline.
      destruct (readline_upto (Z.to_nat LOG_LINE_MAX_LENGTH) (stdout p))
        as [l r]. cbn [fst] in Hinc. rewrite Hinc, Herr. reflexivity.
Qed.

Lemma string_length_Z_le (s : string) (n : Z) :
  Z.of_nat (String.length s) <= n -> (String.length s <= Z.to_nat n)%nat.
Proof. lia. Qed.

(** What [run] does once the spawn has succeeded. *)
Lemma run_spawned (env : Env) (self0 : LoggingSubprocess) (p : Popen)
    (t0 : list Event) :
  _process self0 = None ->
  _start_subprocess env self0 = (Ok (Some p), t0) ->
  exists fuel0 rest, forall fuel,
    run env (fuel0 + fuel) self0
    = Some
        match stdout_error p with
        | None =>
            (fst (callback_outcome self0),
             set_process (set_has_started self0 true)
               (Some (wait (set_stdout p ""))),
             t0
             ++ [EvLog INFO
                   ("Command started as pid: " ++ str_int (pid p))%string]
             ++ stream_events
                  (lines_of (S (String.length (stdout p)))
                     LOG_LINE_MAX_LENGTH (stdout p) (stdout_error p))
             ++ snd (callback_outcome self0))
        | Some e =>
            (Raise e,
             set_process (set_has_started self0 true)
               (Some (set_stdout p rest)),
             t0
             ++ [EvLog INFO
                   ("Command started as pid: " ++ str_int (pid p))%string]
             ++ stream_events
                  (lines_of (S (String.length (stdout p)))
                     LOG_LINE_MAX_LENGTH (stdout p) (stdout_error p)))
        end.
Proof.
  intros Hp Hs.
  set (c5 := {| pc := AtReadline;
                self := set_has_started (set_process self0 (Some p)) true;
                trace := t0 ++
                  [EvLog INFO ("Command started as pid: " ++ str_int (pid p))%string]
             |}).
  assert (H5 : run_steps env 5 (enter_run self0 []) = c5).
  { simpl. unfold run_step at 5. simpl. rewrite Hp.
    unfold run_step at 4. simpl. rewrite Hs.
    unfold run_step at 3. simpl.
    unfold run_step at 2. simpl.
    unfold run_step. simpl. reflexivity. }
  destruct (read_loop env (String.length (stdout p)) c5 p (le_n _)
              eq_refl eq_refl) as (k & rest & Hk & Hnone).
  set (ev := stream_events _) in *. clearbody ev.
  exists (5 + k + 3)%nat, rest. intro fuel. unfold run.
  rewrite !run_steps_add. rewrite H5, Hk.
  destruct (stdout_error p) as [e|].
  - rewrite !run_steps_finished by reflexivity.
    unfold c5. cbn [pc self trace]. rewrite <- app_assoc. reflexivity.
  - rewrite (Hnone eq_refl).
    change 3%nat with (1 + 2)%nat. rewrite run_steps_add.
    set (cW := {| pc := AtWait;
                  self := set_process (self c5) (Some (set_stdout p ""));
                  trace := trace c5 ++ ev |}).
    assert (H1 : run_steps env 1 cW =
      {| pc := AtCallback;
         self := set_process (set_has_started self0 true)
                   (Some (wait (set_stdout p "")));
         trace := trace cW |}).
    { simpl. unfold run_step. simpl. reflexivity. }
    rewrite H1.
    rewrite (run_steps_callback env _ AtReturn) by (right; split; reflexivity).
    rewrite run_steps_finished by apply callback_outcome_finished.
    cbn [pc self trace]. unfold cW, c5. cbn [trace].
    rewrite <- !app_assoc.
    exact (callback_outcome_result self0 _ _).
Qed.

(** After a [run] that spawned, a second [run] is refused. *)
Lemma second_run_after_spawn_refused (env : Env) (self0 : LoggingSubprocess)
    (p : Popen) (t0 : list Event) :
  _process self0 = None ->
  _start_subprocess env self0 = (Ok (Some p), t0) ->
  exists fuel0 r self1 t1,
    (forall fuel, run env (fuel0 + fuel) self0 = Some (r, self1, t1)) /\
    (forall fuel, run env (1 + fuel) self1 = Some (Raise already_run, self1, [])).
Proof.
  intros Hp Hs.
  destruct (run_spawned env self0 p t0 Hp Hs) as (fuel0 & rest & Hrun).
  exists fuel0.
  destruct (stdout_error p) as [e|]; do 3 eexists;
    (split; [exact Hrun|]); intro fuel.
  - apply run_refused_with_process with (p := set_stdout p rest).
    reflexivity.
  - apply run_refused_with_process with (p := wait (set_stdout p "")).
    reflexivity.
Qed.

(** C7 (amended). After a successful spawn [run] reads the text of the
    pipe, every read asking for at most 64000 characters (not bytes: a read
    of 64000 two-byte characters takes 128000 bytes of output).  Each
    non-empty read, ended by a line feed or not, gives exactly one INFO log
    record, holding the read without its trailing line feeds and carriage
    returns, and 64000 characters without a line ending are one read.  When
    the child's output decodes, the reads together are the whole output with
    its line endings translated, the loop is left at the read that returns
    the empty string, which readline does exactly at the end of the output,
    and [run] goes on to wait and to the hook.  When decoding fails, the
    loop is left by the UnicodeDecodeError of the read, which comes out of
    [run]: the lines read before it are logged, there is no wait and no hook
    call. *)
Theorem run_streams_capped_lines (env : Env) (self0 : LoggingSubprocess)
    (p : Popen) (t0 : list Event) :
  _process self0 = None ->
  _start_subprocess env self0 = (Ok (Some p), t0) ->
  let lines :=
    lines_of (S (String.length (stdout p))) LOG_LINE_MAX_LENGTH (stdout p)
      (stdout_error p) in
  (exists fuel0 rest, forall fuel,
     run env (fuel0 + fuel) self0
     = Some
         match stdout_error p with
         | None =>
             (fst (callback_outcome self0),
              set_process (set_has_started self0 true)
                (Some (wait (set_stdout p ""))),
              t0
              ++ [EvLog INFO
                    ("Command started as pid: " ++ str_int (pid p))%string]
              ++ stream_events lines
              ++ snd (callback_outcome self0))
         | Some e =>
             (Raise e,
              set_process (set_has_started self0 true)
                (Some (set_stdout p rest)),
              t0
              ++ [EvLog INFO
                    ("Command started as pid: " ++ str_int (pid p))%string]
              ++ stream_events lines)
         end) /\
  LOG_LINE_MAX_LENGTH = 64000 /\
  (stdout_error p = None ->
   string_concat lines = universal_newlines (stdout p)) /\
  Forall (fun line =>
            line <> EmptyString /\
            Z.of_nat (String.length line) <= 64000 /\
            has_char CR line = false /\
            (last_char line = Some LF \/ has_char LF line = false)) lines /\
  (forall a b err,
     Z.of_nat (String.length a) = 64000 ->
     has_char LF a = false -> has_char CR a = false ->
     readline LOG_LINE_MAX_LENGTH (a ++ b) err = Ok (a, b)) /\
  (forall line, exists suffix,
     line = (rstrip line ++ suffix)%string /\
     only_terminators suffix = true /\
     last_char (rstrip line) <> Some LF /\
     last_char (rstrip line) <> Some CR) /\
  (forall c q,
     pc c = AtReadline -> _process (self c) = Some q ->
     (pc (run_step env c) = AtWait <->
        exists rest,
          readline LOG_LINE_MAX_LENGTH (stdout q) (stdout_error q)
          = Ok (EmptyString, rest)) /\
     ((exists rest,
          readline LOG_LINE_MAX_LENGTH (stdout q) (stdout_error q)
          = Ok (EmptyString, rest)) <->
        stdout q = EmptyString /\ stdout_error q = None) /\
     (forall e,
        pc (run_step env c) = Raised e <->
        readline LOG_LINE_MAX_LENGTH (stdout q) (stdout_error q) = Raise e)) /\
  (forall b err,
     readline LOG_LINE_MAX_LENGTH
       (replicate (Z.to_nat LOG_LINE_MAX_LENGTH) "233"%char ++ b) err
     = Ok (replicate (Z.to_nat LOG_LINE_MAX_LENGTH) "233"%char, b) /\
     Z.of_nat (utf8_length
                 (replicate (Z.to_nat LOG_LINE_MAX_LENGTH) "233"%char))
     = 128000).
Proof.
  intros Hp Hs lines.
  split; [exact (run_spawned env self0 p t0 Hp Hs)|].
  split; [reflexivity|].
  split.
  { intro Herr. unfold lines. rewrite Herr.
    apply lines_of_concat; [exact log_line_max_length_pos|apply le_n]. }
  split; [exact (lines_of_Forall LOG_LINE_MAX_LENGTH
                   log_line_max_length_pos _ (stdout p) (stdout_error p))|].
  split; [intros a b err; apply readline_capped|].
  split; [exact rstrip_spec|].
  split; [|exact capped_read_of_two_byte_characters].
  intros c q Hpc Hq.
  destruct (readline LOG_LINE_MAX_LENGTH (stdout q) (stdout_error q))
    as [[line rest]|e'] eqn:Hr.
  - rewrite (step_readline env c q line rest Hpc Hq Hr). cbn [pc].
    split; [|split].
    + destruct (String.eqb line "") eqn:Hl.
      * apply String.eqb_eq in Hl. subst line.
        split; [intros _; now exists rest|reflexivity].
      * apply String.eqb_neq in Hl.
        split; [discriminate|]. intros [r Hr']. congruence.
    + split.
      * intros [r Hr']. rewrite Hr' in Hr.
        apply (readline_ok_empty _ log_line_max_length_pos) in Hr.
        tauto.
      * intros [Hs' He']. exists EmptyString.
        rewrite <- Hr.
        apply (readline_ok_empty _ log_line_max_length_pos).
        auto.
    + intro e. destruct (String.eqb line ""); split; discriminate.
  - rewrite (step_readline_raise env c q e' Hpc Hq Hr). cbn [pc].
    split; [|split].
    + split; [discriminate|]. intros [r Hr']. discriminate.
    + split.
      * intros [r Hr']. discriminate.
      * intros [Hs' He'].
        apply (readline_raise _) in Hr. destruct Hr as [Hr _]. congruence.
    + intro e. split; congruence.
Qed.

Lemma run_streams_capped_lines_witness :
  exists (fuel0 : nat) (rest : string), forall fuel,
    run Example.posix (fuel0 + fuel) (Example.handle ["echo"; "hi"] None)
    = Some (Ok tt,
            set_process
              (set_has_started (Example.handle ["echo"; "hi"] None) true)
              (Some (wait (set_stdout Example.spawned ""))),
            [EvLog INFO "Running command echo hi";
             EvPopen {| pa_args := ["echo"; "hi"]; pa_stdin := DEVNULL;
                        pa_stdout := PIPE; pa_stderr := STDOUT;
                        pa_encoding := "utf-8"; pa_start_new_session := true;
                        pa_creationflags := None |};
             EvLog INFO "Command started as pid: 4242";
             EvReadline 64000; EvLog INFO "hi";
             EvReadline 64000; EvLog INFO "x";
             EvReadline 64000; EvCallback]).
Proof.
  exact (proj1 (run_streams_capped_lines Example.posix
                  (Example.handle ["echo"; "hi"] None) Example.spawned
                  [EvLog INFO "Running command echo hi";
                   EvPopen {| pa_args := ["echo"; "hi"]; pa_stdin := DEVNULL;
                              pa_stdout := PIPE; pa_stderr := STDOUT;
                              pa_encoding := "utf-8";
                              pa_start_new_session := true;
                              pa_creationflags := None |}]
                  eq_refl eq_refl)).
Defined.

(** C7 (as stated) fails.  A child writes the bytes of ok, a line feed and
    the byte 255, which utf-8 does not decode.  The first read of [run]
    raises UnicodeDecodeError: the loop is left without any read having
    returned the empty string, [run] raises, its [wait] is never reached,
    nothing of the output is logged and the hook is not called. *)
Lemma undecodable_output_leaves_loop_by_exception :
  run ExampleUndecodable.posix 6 (Example.handle ["emit"] None)
  = Some (Raise ExampleUndecodable.invalid_start_byte,
          set_process (set_has_started (Example.handle ["emit"] None) true)
            (Some ExampleUndecodable.spawned),
          [EvLog INFO "Running command emit";
           EvPopen {| pa_args := ["emit"]; pa_stdin := DEVNULL;
                      pa_stdout := PIPE; pa_stderr := STDOUT;
                      pa_encoding := "utf-8"; pa_start_new_session := true;
                      pa_creationflags := None |};
           EvLog INFO "Command started as pid: 99";
           EvReadline 64000]) /\
  ~ (exists rest,
       readline LOG_LINE_MAX_LENGTH (stdout ExampleUndecodable.spawned)
         (stdout_error ExampleUndecodable.spawned)
       = Ok (EmptyString, rest)) /\
  ~ (exists k,
       pc (run_steps ExampleUndecodable.posix k
             (enter_run (Example.handle ["emit"] None) [])) = AtWait).
Proof.
  split; [reflexivity|]. split.
  - intros [rest H]. discriminate.
  - intros [k H].
    destruct k as [|[|[|[|[|[|k]]]]]]; try discriminate.
    change (S (S (S (S (S (S k))))))%nat with (6 + k)%nat in H.
    rewrite run_steps_add, run_steps_finished in H by reflexivity.
    discriminate.
Qed.

(** ** The exit code and other threads *)

Lemma start_subprocess_fresh (env : Env) (self0 : LoggingSubprocess)
    (p : Popen) (t : list Event) :
  fresh_popen env ->
  _start_subprocess env self0 = (Ok (Some p), t) ->
  returncode p = None.
Proof.
  intros Hfresh. unfold _start_subprocess, _start_subprocess_try.
  destruct (is_posix env).
  - cbn. match goal with
    | |- context [Popen_call env ?a] =>
        destruct (Popen_call env a) as [q|e] eqn:Hq
    end.
    + intro H. inversion H; subst. exact (Hfresh _ _ Hq).
    + destruct (is_OSError e); discriminate.
  - destruct (encoded_start_job_wrapper env (_args self0) (_user self0))
      as [enc|e]; cbn.
    + match goal with
      | |- context [Popen_call env ?a] =>
          destruct (Popen_call env a) as [q|e] eqn:Hq
      end.
      * intro H. inversion H; subst. exact (Hfresh _ _ Hq).
      * destruct (is_OSError e); discriminate.
    + destruct (is_OSError e); discriminate.
Qed.

(** As long as nobody calls notify or terminate, the exit code is not
    visible before [run] has passed its [wait]. *)
Lemma run_step_keeps_exit_code_hidden (env : Env) (c : Cfg) :
  fresh_popen env ->
  (before_reap (pc c) = true -> exit_code (self c) = None) ->
  before_reap (pc (run_step env c)) = true ->
  exit_code (self (run_step env c)) = None.
Proof.
  intros Hfresh Hinv. unfold run_step, call_callback.
  destruct (pc c) eqn:Hpc.
  - (* AtGuard *)
    destruct (_process (self c)) eqn:Hp; cbn; [discriminate|].
    intros _. unfold exit_code. now rewrite Hp.
  - (* AtStart *)
    destruct (_start_subprocess env (self c)) as [[[q|]|e] t] eqn:Hs; cbn;
      try discriminate; intros _.
    + exact (start_subprocess_fresh env _ _ _ Hfresh Hs).
    + reflexivity.
  - (* AtSetStarted *) cbn. intros _. exact (Hinv eq_refl).
  - (* AtCheckProcess *)
    destruct (_process (self c)); cbn; intros _; exact (Hinv eq_refl).
  - (* AtSetFailed *) cbn. intros _. exact (Hinv eq_refl).
  - (* AtFailCallback *)
    destruct (_callback (self c)) as [[[] [|]]|]; cbn;
      try discriminate; intros _; exact (Hinv eq_refl).
  - (* AtFailReturn *) cbn. discriminate.
  - (* AtLogStarted *)
    destruct (_process (self c)); cbn; [|discriminate].
    intros _. exact (Hinv eq_refl).
  - (* AtReadline *)
    destruct (_process (self c)) as [q|] eqn:Hp; cbn [pc]; [|discriminate].
    destruct (readline LOG_LINE_MAX_LENGTH (stdout q) (stdout_error q))
      as [[line rest]|e]; cbn [pc self]; [|discriminate].
    intros _. specialize (Hinv eq_refl).
    unfold exit_code in *. rewrite Hp in Hinv. exact Hinv.
  - (* AtLogLine *) cbn. intros _. exact (Hinv eq_refl).
  - (* AtWait *) destruct (_process (self c)); cbn; discriminate.
  - (* AtCallback *)
    destruct (_callback (self c)) as [[[] [|]]|]; cbn; discriminate.
  - (* AtReturn *) cbn. discriminate.
  - rewrite Hpc. discriminate.
  - rewrite Hpc. discriminate.
Qed.

Lemma exit_code_hidden_without_cancel (env : Env) (acts : list Action) :
  fresh_popen env ->
  Forall (fun a => a = ThreadRun \/ a = ChildExits) acts ->
  forall c,
    (before_reap (pc c) = true -> exit_code (self c) = None) ->
    before_reap (pc (interleave env acts c)) = true ->
    exit_code (self (interleave env acts c)) = None.
Proof.
  intros Hfresh Hacts. induction Hacts as [|a acts Ha _ IH]; intros c Hinv.
  - exact Hinv.
  - cbn [interleave fold_left]. apply IH. destruct Ha as [-> | ->]; cbn.
    + now apply run_step_keeps_exit_code_hidden.
    + destruct (_process (self c)) as [q|] eqn:Hp; [|exact Hinv].
      cbn. intro Hb. specialize (Hinv Hb).
      unfold exit_code in Hinv. rewrite Hp in Hinv. exact Hinv.
Qed.

(** Once the child has exited, a call of notify or terminate stores the
    return code in the process object, wherever [run] stands. *)
Lemma cancel_call_stores_returncode (env : Env) (c : Cfg) (p : Popen)
    (a : Action) :
  a = CallNotify \/ a = CallTerminate ->
  _process (self c) = Some p ->
  returncode p = None ->
  pc (interleave env [ChildExits; a] c) = pc c /\
  exit_code (self (interleave env [ChildExits; a] c)) = Some (child_status p) /\
  trace (interleave env [ChildExits; a] c) = trace c.
Proof.
  intros Ha Hp Hrc.
  destruct Ha as [-> | ->]; cbn; rewrite Hp; cbn;
    unfold notify, terminate; cbn; unfold poll; cbn; rewrite Hrc; cbn;
    rewrite app_nil_r; repeat split.
Qed.

(** C3 (what the code does). A child prints two lines and exits with
    status 3.  [run] has spawned it and stands at its first read, nothing
    read yet; the child exits; another thread calls terminate.  The call
    signals nothing, but its [poll] stores the return code: [exit_code] is
    now 3 although [run] is still in the reading loop with the whole output
    unread, and [run] goes on to log the first line afterwards. *)
Theorem exit_code_visible_while_streaming :
  let c :=
    interleave Example.posix
      [ThreadRun; ThreadRun; ThreadRun; ThreadRun; ThreadRun;
       ChildExits; CallTerminate]
      (enter_run (Example.handle ["echo"; "hi"] None) []) in
  pc c = AtReadline /\
  before_reap (pc c) = true /\
  (exists p, _process (self c) = Some p /\ stdout p = stdout Example.spawned) /\
  exit_code (self c) = Some 3 /\
  is_running (self c) = false /\
  relay_calls (trace c) = [] /\
  trace (interleave Example.posix [ThreadRun; ThreadRun] c)
  = trace c ++ [EvReadline LOG_LINE_MAX_LENGTH; EvLog INFO "hi"] /\
  exit_code (self (interleave Example.posix [ThreadRun; ThreadRun] c))
  = Some 3.
Proof.
  cbv zeta.
  split; [reflexivity|]. split; [reflexivity|].
  split; [eexists; split; reflexivity|].
  split; [reflexivity|]. split; [reflexivity|]. split; [reflexivity|].
  split; reflexivity.
Qed.

(** * Further properties *)

(** ** Spawning *)

Lemma popen_calls_app (t1 t2 : list Event) :
  popen_calls (t1 ++ t2) = popen_calls t1 ++ popen_calls t2.
Proof.
  induction t1 as [|ev t1 IH]; [reflexivity|].
  destruct ev; simpl; rewrite IH; reflexivity.
Qed.

Lemma start_subprocess_events (env : Env) (self0 : LoggingSubprocess) :
  popen_calls (snd (_start_subprocess env self0))
  = popen_calls (snd (_start_subprocess_try env self0)).
Proof.
  unfold _start_subprocess.
  destruct (_start_subprocess_try env self0) as [[q|e] t]; [reflexivity|].
  destruct (is_OSError e); [|reflexivity].
  cbn [snd]. rewrite popen_calls_app. cbn. apply app_nil_r.
Qed.

Lemma posix_popen_args (env : Env) (self0 : LoggingSubprocess) :
  is_posix env = true ->
  popen_calls (snd (_start_subprocess env self0))
  = [{| pa_args :=
          match _user self0 with
          | Some user =>
              if negb (String.eqb (user_name user) (getuser env))
              then ["sudo"; "-u"; user_name user; "-i"; "setsid"; "-w"]
              else []
          | None => []
          end ++ _args self0;
        pa_stdin := DEVNULL; pa_stdout := PIPE; pa_stderr := STDOUT;
        pa_encoding := _encoding self0;
        pa_start_new_session := true;
        pa_creationflags := None |}].
Proof.
  intro Hos. rewrite start_subprocess_events.
  unfold _start_subprocess_try. rewrite Hos.
  destruct (_user self0); reflexivity.
Qed.

(** X1. On a POSIX host one process is created per start, with standard
    input suppressed, standard output piped, standard error merged into it,
    the handle's encoding and a new session.  Its command is the argument
    vector, behind sudo -u <account> -i setsid -w exactly when a principal
    other than the invoking account is configured. *)
Theorem posix_spawn_command (env : Env) (self0 : LoggingSubprocess) :
  is_posix env = true ->
  exists prefix,
    popen_calls (snd (_start_subprocess env self0))
    = [{| pa_args := prefix ++ _args self0;
          pa_stdin := DEVNULL; pa_stdout := PIPE; pa_stderr := STDOUT;
          pa_encoding := _encoding self0;
          pa_start_new_session := true;
          pa_creationflags := None |}] /\
    (forall u, _user self0 = Some u -> user_name u <> getuser env ->
       prefix = ["sudo"; "-u"; user_name u; "-i"; "setsid"; "-w"]) /\
    (forall u, _user self0 = Some u -> user_name u = getuser env ->
       prefix = []) /\
    (_user self0 = None -> prefix = []).
Proof.
  intro Hos. rewrite (posix_popen_args env self0 Hos).
  eexists. split; [reflexivity|].
  destruct (_user self0) as [u|].
  - split; [|split].
    + intros u' Hu Hne. inversion Hu; subst u'.
      apply String.eqb_neq in Hne. rewrite Hne. reflexivity.
    + intros u' Hu Heq. inversion Hu; subst u'.
      apply String.eqb_eq in Heq. rewrite Heq. reflexivity.
    + discriminate.
  - split; [|split]; try discriminate. reflexivity.
Qed.

Lemma posix_spawn_command_witness :
  exists prefix,
    popen_calls
      (snd (_start_subprocess Example.posix
              (Example.handle ["sleep"; "5"]
                 (Some (PosixSessionUser "jobuser")))))
    = [{| pa_args := prefix ++ ["sleep"; "5"];
          pa_stdin := DEVNULL; pa_stdout := PIPE; pa_stderr := STDOUT;
          pa_encoding := "utf-8";
          pa_start_new_session := true;
          pa_creationflags := None |}] /\
    (forall u, Some (PosixSessionUser "jobuser") = Some u ->
       user_name u <> "worker" ->
       prefix = ["sudo"; "-u"; user_name u; "-i"; "setsid"; "-w"]) /\
    (forall u, Some (PosixSessionUser "jobuser") = Some u ->
       user_name u = "worker" -> prefix = []) /\
    (Some (PosixSessionUser "jobuser") = @None SessionUser -> prefix = []).
Proof.
  apply (posix_spawn_command Example.posix
           (Example.handle ["sleep"; "5"] (Some (PosixSessionUser "jobuser")))).
  reflexivity.
Defined.

(** X2. On a host that is not POSIX the command of the handle is never run
    directly and never behind sudo: when the wrapper script is produced, the
    one process created is powershell.exe with the encoded script, in a new
    process group; when producing it raises, no process is created, and the
    exception is a failed start if it is an OSError and comes out of
    [_start_subprocess] otherwise. *)
Theorem windows_spawn_command (env : Env) (self0 : LoggingSubprocess) :
  is_posix env = false ->
  match encoded_start_job_wrapper env (_args self0) (_user self0) with
  | Ok payload =>
      popen_calls (snd (_start_subprocess env self0))
      = [{| pa_args := ["powershell.exe"; "-ExecutionPolicy"; "Unrestricted";
                        "-EncodedCommand"; payload];
            pa_stdin := DEVNULL; pa_stdout := PIPE; pa_stderr := STDOUT;
            pa_encoding := _encoding self0;
            pa_start_new_session := true;
            pa_creationflags := Some "CREATE_NEW_PROCESS_GROUP" |}]
  | Raise e =>
      popen_calls (snd (_start_subprocess env self0)) = [] /\
      fst (_start_subprocess env self0)
      = (if is_OSError e then Ok None else Raise e)
  end.
Proof.
  intro Hos.
  destruct (encoded_start_job_wrapper env (_args self0) (_user self0))
    as [payload|e] eqn:Hw.
  - rewrite start_subprocess_events.
    unfold _start_subprocess_try. rewrite Hos, Hw. reflexivity.
  - unfold _start_subprocess, _start_subprocess_try. rewrite Hos, Hw. cbn.
    destruct (is_OSError e); split; reflexivity.
Qed.

Lemma windows_spawn_command_witness :
  popen_calls
    (snd (_start_subprocess ExampleWin.windows
            (ExampleWin.handle ["whoami"] (Some (WindowsSessionUser "job")))))
  = [{| pa_args := ["powershell.exe"; "-ExecutionPolicy"; "Unrestricted";
                    "-EncodedCommand"; "cGF5bG9hZA=="];
        pa_stdin := DEVNULL; pa_stdout := PIPE; pa_stderr := STDOUT;
        pa_encoding := "utf-8";
        pa_start_new_session := true;
        pa_creationflags := Some "CREATE_NEW_PROCESS_GROUP" |}].
Proof.
  exact (windows_spawn_command ExampleWin.windows
           (ExampleWin.handle ["whoami"] (Some (WindowsSessionUser "job")))
           eq_refl).
Defined.

(** X3. A handle that was constructed keeps what the constructor checked:
    its argument vector is not empty, on a POSIX host a configured principal
    is a PosixSessionUser and on a Windows host a WindowsSessionUser (the
    casts in the other methods are sound), and on a POSIX host the command
    of the one process it creates is not empty and ends with the argument
    vector. *)
Theorem constructed_handle_is_well_formed (env : Env) (args : list string)
    (encoding : string) (user : option SessionUser)
    (callback : option Callback) (h : LoggingSubprocess) :
  __init__ env args encoding user callback = Ok h ->
  _args h <> [] /\
  (is_posix env = true ->
     forall u, _user h = Some u -> u = PosixSessionUser (user_name u)) /\
  (is_windows env = true ->
     forall u, _user h = Some u -> u = WindowsSessionUser (user_name u)) /\
  (is_posix env = true ->
     exists prefix a,
       popen_calls (snd (_start_subprocess env h)) = [a] /\
       pa_args a = prefix ++ args /\ pa_args a <> []).
Proof.
  intro Hinit. pose proof (init_ok _ _ _ _ _ _ Hinit) as Hh.
  unfold __init__, is_posix, is_windows in *.
  destruct (Z.of_nat (length args) <? 1) eqn:Hlen; [discriminate|].
  assert (Hne : args <> []).
  { intro H. apply length_lt_1_nil in H. congruence. }
  subst h. cbn [_args _user].
  split; [exact Hne|].
  split; [|split].
  - intros Hos u Hu. subst user. rewrite Hos in Hinit.
    destruct u; try discriminate. reflexivity.
  - intros Hos u Hu. subst user.
    destruct (String.eqb (os_name env) "posix"
              && negb (isinstance_PosixSessionUser u)); [discriminate|].
    rewrite Hos in Hinit. destruct u; try discriminate. reflexivity.
  - intros Hos. eexists _, _.
    split; [apply (posix_popen_args env _ Hos)|].
    split; [reflexivity|]. cbn [pa_args _args].
    intro H. apply app_eq_nil in H. destruct H as [_ H]. exact (Hne H).
Qed.

Lemma constructed_handle_is_well_formed_witness :
  _args (Example.handle ["sleep"; "5"] (Some (PosixSessionUser "jobuser")))
  <> [].
Proof.
  exact (proj1 (constructed_handle_is_well_formed Example.posix
                  ["sleep"; "5"] "utf-8" (Some (PosixSessionUser "jobuser"))
                  (Some plain_callback)
                  (Example.handle ["sleep"; "5"]
                     (Some (PosixSessionUser "jobuser")))
                  eq_refl)).
Defined.

(** ** Cancelling *)

Lemma set_process_poll_live (self0 : LoggingSubprocess) (p : Popen) :
  _process self0 = Some p -> set_process self0 (Some p) = self0.
Proof. intro H. now apply set_process_same. Qed.

(** X4. On a host that is not POSIX, with a live process: notify raises
    NotImplementedError and does nothing else; terminate logs, calls the
    tree killer once with the pid of the process and cascade True, never
    runs the POSIX relay, and ends as the tree killer ends. *)
Theorem non_posix_notify_unsupported_terminate_kills_tree (env : Env)
    (self0 : LoggingSubprocess) (p : Popen) :
  is_posix env = false -> _process self0 = Some p -> live p ->
  notify env self0
  = (self0,
     (Raise {| exc_class := NotImplementedError;
               exc_msg := "Notify not implemented on non-posix yet" |}, [])) /\
  fst (terminate env self0) = self0 /\
  fst (snd (terminate env self0)) = kill_windows_process_tree env (pid p) true /\
  kill_tree_calls (snd (snd (terminate env self0))) = [(pid p, true)] /\
  relay_calls (snd (snd (terminate env self0))) = [] /\
  log_messages INFO (snd (snd (terminate env self0)))
  = [("Start killing the process tree with the root pid: "
      ++ str_int (pid p))%string].
Proof.
  intros Hos Hp Hl. unfold notify, terminate.
  rewrite Hp, (poll_live p Hl), Hos, (set_process_poll_live self0 p Hp).
  split; [reflexivity|]. split; [reflexivity|].
  cbn. destruct (kill_windows_process_tree env (pid p) true);
    repeat split; reflexivity.
Qed.

Lemma non_posix_notify_unsupported_terminate_kills_tree_witness :
  notify ExampleWin.windows
    (set_process (ExampleWin.handle ["whoami"] None)
       (Some ExampleWin.spawned))
  = (set_process (ExampleWin.handle ["whoami"] None)
       (Some ExampleWin.spawned),
     (Raise {| exc_class := NotImplementedError;
               exc_msg := "Notify not implemented on non-posix yet" |}, [])).
Proof.
  refine (proj1 (non_posix_notify_unsupported_terminate_kills_tree
                   ExampleWin.windows
                   (set_process (ExampleWin.handle ["whoami"] None)
                      (Some ExampleWin.spawned))
                   ExampleWin.spawned _ _ _)).
  - reflexivity.
  - reflexivity.
  - split; reflexivity.
Defined.

Lemma posix_signal_no_tree_kill (env : Env) (self0 : LoggingSubprocess)
    (signal : string) (flag : bool) :
  kill_tree_calls (snd (_posix_signal_subprocess env self0 signal flag)) = [].
Proof.
  unfold _posix_signal_subprocess.
  destruct (_process self0) as [p|]; [|reflexivity]. cbn.
  destruct (subprocess_run env _) as [r|e]; cbn; [|reflexivity].
  destruct (cp_returncode r =? 0); cbn; [reflexivity|].
  destruct (cp_stdout_decode r); reflexivity.
Qed.

(** X5. The two signalling mechanisms never cross, in any state of the
    handle: on a POSIX host neither notify nor terminate calls the Windows
    tree killer, and on any other host neither runs the POSIX relay. *)
Theorem cancel_uses_the_mechanism_of_the_host (env : Env)
    (self0 : LoggingSubprocess) :
  (is_posix env = true ->
     kill_tree_calls (snd (snd (notify env self0))) = [] /\
     kill_tree_calls (snd (snd (terminate env self0))) = []) /\
  (is_posix env = false ->
     relay_calls (snd (snd (notify env self0))) = [] /\
     relay_calls (snd (snd (terminate env self0))) = []).
Proof.
  unfold notify, terminate.
  destruct (_process self0) as [p|]; [|repeat split; reflexivity].
  destruct (poll p) as [[rc|] p']; [repeat split; reflexivity|].
  split; intros Hos; rewrite Hos; cbn [snd].
  - split; apply posix_signal_no_tree_kill.
  - split; [reflexivity|]. cbn.
    destruct (kill_windows_process_tree env (pid p') true); reflexivity.
Qed.

(** X6. What the exit status of the relay does to the signalling.  With
    status zero [_posix_signal_subprocess] returns normally and logs no
    warning.  With any other status it decodes the relay's output as utf-8:
    if that decodes, it logs exactly one WARNING record, naming the signal
    and the pid and carrying the output, and returns normally; if it does
    not, the UnicodeDecodeError comes out and no warning is logged.  An
    exception from running the relay itself comes out too. *)
Theorem relay_outcome_by_status (env : Env)
    (self0 : LoggingSubprocess) (p : Popen) (signal : string) (flag : bool) :
  _process self0 = Some p ->
  match subprocess_run env (posix_signal_cmd env self0 p signal flag) with
  | Ok result =>
      if cp_returncode result =? 0 then
        fst (_posix_signal_subprocess env self0 signal flag) = Ok tt /\
        log_messages WARNING
          (snd (_posix_signal_subprocess env self0 signal flag)) = []
      else
        match cp_stdout_decode result with
        | Ok output =>
            fst (_posix_signal_subprocess env self0 signal flag) = Ok tt /\
            log_messages WARNING
              (snd (_posix_signal_subprocess env self0 signal flag))
            = [("Failed to send signal '" ++ signal ++ "' to subprocess "
                ++ str_int (pid p) ++ ": " ++ output)%string]
        | Raise e =>
            fst (_posix_signal_subprocess env self0 signal flag) = Raise e /\
            log_messages WARNING
              (snd (_posix_signal_subprocess env self0 signal flag)) = []
        end
  | Raise e =>
      fst (_posix_signal_subprocess env self0 signal flag) = Raise e /\
      log_messages WARNING
        (snd (_posix_signal_subprocess env self0 signal flag)) = []
  end.
Proof.
  intro Hp. unfold _posix_signal_subprocess. rewrite Hp. cbn.
  destruct (subprocess_run env (posix_signal_cmd env self0 p signal flag))
    as [result|e]; cbn; [|split; reflexivity].
  destruct (cp_returncode result =? 0); cbn; [split; reflexivity|].
  destruct (cp_stdout_decode result); split; reflexivity.
Qed.

Lemma relay_outcome_by_status_witness :
  fst (_posix_signal_subprocess ExampleUndecodable.posix
         (set_process (Example.handle ["sleep"; "5"] None)
            (Some Example.spawned)) "kill" true)
  = Raise ExampleUndecodable.invalid_start_byte /\
  log_messages WARNING
    (snd (_posix_signal_subprocess ExampleUndecodable.posix
            (set_process (Example.handle ["sleep"; "5"] None)
               (Some Example.spawned)) "kill" true)) = [].
Proof.
  exact (relay_outcome_by_status ExampleUndecodable.posix
           (set_process (Example.handle ["sleep"; "5"] None)
              (Some Example.spawned)) Example.spawned "kill" true eq_refl).
Defined.

(** What a call of [poll] on the process of the handle makes of the exit
    code. *)
Lemma poll_fields (p : Popen) :
  pid (snd (poll p)) = pid p /\
  stdout (snd (poll p)) = stdout p /\
  child_exited (snd (poll p)) = child_exited p /\
  child_status (snd (poll p)) = child_status p /\
  returncode (snd (poll p)) = fst (poll p) /\
  fst (poll p)
  = match returncode p with
    | Some rc => Some rc
    | None => if child_exited p then Some (child_status p) else None
    end.
Proof.
  unfold poll. destruct (returncode p) eqn:Hrc.
  - cbn. rewrite Hrc. repeat split; reflexivity.
  - destruct (child_exited p) eqn:Hex; cbn; rewrite ?Hrc, ?Hex;
      repeat split; reflexivity.
Qed.

Lemma cancel_handle (env : Env) (self0 : LoggingSubprocess) :
  fst (notify env self0) = fst (terminate env self0) /\
  fst (notify env self0)
  = match _process self0 with
    | Some p => set_process self0 (Some (snd (poll p)))
    | None => self0
    end.
Proof.
  unfold notify, terminate.
  destruct (_process self0) as [p|]; [|split; reflexivity].
  destruct (poll p) as [[rc|] p']; split; reflexivity.
Qed.


(** ** The life cycle under interleaving *)

Lemma callback_calls_app (t1 t2 : list Event) :
  callback_calls (t1 ++ t2) = (callback_calls t1 + callback_calls t2)%nat.
Proof.
  induction t1 as [|ev t1 IH]; [reflexivity|].
  destruct ev; simpl; rewrite IH; reflexivity.
Qed.

Lemma start_no_callback (env : Env) (self0 : LoggingSubprocess) :
  callback_calls (snd (_start_subprocess env self0)) = O.
Proof.
  pose proof (start_try_no_callback env self0) as H.
  unfold _start_subprocess.
  destruct (_start_subprocess_try env self0) as [[q|e] t]; [exact H|].
  destruct (is_OSError e); [|exact H].
  cbn [snd] in *. rewrite callback_calls_app, H. reflexivity.
Qed.

Lemma posix_signal_no_callback (env : Env) (self0 : LoggingSubprocess)
    (signal : string) (flag : bool) :
  callback_calls (snd (_posix_signal_subprocess env self0 signal flag)) = O.
Proof.
  unfold _posix_signal_subprocess.
  destruct (_process self0) as [p|]; [|reflexivity]. cbn.
  destruct (subprocess_run env _) as [r|e]; cbn; [|reflexivity].
  destruct (cp_returncode r =? 0); cbn; [reflexivity|].
  destruct (cp_stdout_decode r); reflexivity.
Qed.

Lemma cancel_no_callback (env : Env) (self0 : LoggingSubprocess) :
  callback_calls (snd (snd (notify env self0))) = O /\
  callback_calls (snd (snd (terminate env self0))) = O.
Proof.
  unfold notify, terminate.
  destruct (_process self0) as [p|]; [|split; reflexivity].
  destruct (poll p) as [[rc|] p']; [split; reflexivity|].
  destruct (is_posix env); cbn [snd].
  - split; apply posix_signal_no_callback.
  - split; [reflexivity|]. cbn.
    destruct (kill_windows_process_tree env (pid p') true); reflexivity.
Qed.

Lemma wait_fields (p : Popen) :
  pid (wait p) = pid p /\
  returncode (wait p) <> None /\
  (forall k, returncode p = Some k -> returncode (wait p) = Some k).
Proof.
  unfold wait. destruct (returncode p) eqn:Hrc; cbn.
  - rewrite Hrc. repeat split; [discriminate|auto].
  - repeat split; discriminate.
Qed.

(** Replacing the handle by one that agrees with it on everything the
    invariant speaks of, and adding events that are no hook calls, keeps the
    invariant. *)
Lemma lifecycle_frame (cb : option Callback) (c : Cfg)
    (self' : LoggingSubprocess) (t : list Event) :
  _callback self' = _callback (self c) ->
  _start_failed self' = _start_failed (self c) ->
  _has_started self' = _has_started (self c) ->
  (_process (self c) = None -> _process self' = None) ->
  (_process (self c) <> None -> _process self' <> None) ->
  (exit_code (self c) <> None -> exit_code self' <> None) ->
  callback_calls t = O ->
  lifecycle_inv cb c ->
  lifecycle_inv cb {| pc := pc c; self := self'; trace := trace c ++ t |}.
Proof.
  intros Hcb Hf Hl Hn Hs He Ht [Hc H]. unfold lifecycle_inv.
  cbn [pc self trace]. rewrite Hcb, Hf, Hl, callback_calls_app, Ht, Nat.add_0_r.
  split; [exact Hc|].
  destruct (pc c); intuition.
Qed.

(** The facts about a cancelling call that the invariant needs. *)
Lemma notify_frame (env : Env) (self0 : LoggingSubprocess) :
  _callback (fst (notify env self0)) = _callback self0 /\
  _start_failed (fst (notify env self0)) = _start_failed self0 /\
  _has_started (fst (notify env self0)) = _has_started self0 /\
  (_process self0 = None -> _process (fst (notify env self0)) = None) /\
  (_process self0 <> None -> _process (fst (notify env self0)) <> None) /\
  (exit_code self0 <> None -> exit_code (fst (notify env self0)) <> None) /\
  callback_calls (snd (snd (notify env self0))) = O.
Proof.
  destruct (cancel_handle env self0) as [_ Hn]. rewrite Hn.
  destruct (cancel_no_callback env self0) as [Hc _].
  unfold exit_code.
  destruct (_process self0) as [p|] eqn:Hp.
  - destruct (poll_fields p) as (_ & _ & _ & _ & H5 & H6).
    cbn. rewrite H5, H6. repeat split; auto; try discriminate.
    destruct (returncode p); [discriminate|contradiction].
  - rewrite Hp. repeat split; auto.
Qed.

Lemma terminate_frame (env : Env)
    (self0 : LoggingSubprocess) :
  _callback (fst (terminate env self0)) = _callback self0 /\
  _start_failed (fst (terminate env self0)) = _start_failed self0 /\
  _has_started (fst (terminate env self0)) = _has_started self0 /\
  (_process self0 = None -> _process (fst (terminate env self0)) = None) /\
  (_process self0 <> None -> _process (fst (terminate env self0)) <> None) /\
  (exit_code self0 <> None -> exit_code (fst (terminate env self0)) <> None) /\
  callback_calls (snd (snd (terminate env self0))) = O.
Proof.
  destruct (cancel_handle env self0) as [Heq _]. rewrite <- Heq.
  destruct (notify_frame env self0)
    as (F1 & F2 & F3 & F4 & F5 & F6 & _).
  destruct (cancel_no_callback env self0) as [_ Hc].
  repeat split; assumption.
Qed.

Lemma run_step_lifecycle (env : Env) (cb : option Callback) (c : Cfg) :
  lifecycle_inv cb c -> lifecycle_inv cb (run_step env c).
Proof.
  unfold lifecycle_inv, run_step, call_callback. intros [Hcb H].
  destruct (pc c) eqn:Hpc.
  - (* AtGuard *) destruct H as (Hp & Hf & Hc). rewrite Hp. cbn. auto.
  - (* AtStart *)
    destruct H as (Hp & Hf & Hc).
    pose proof (start_no_callback env (self c)) as Hs.
    destruct (_start_subprocess env (self c)) as [[q|e] t]; cbn in *;
      rewrite callback_calls_app, Hc, Hs; cbn.
    + auto.
    + split; [exact Hcb|]. split; [lia|]. congruence.
  - (* AtSetStarted *) destruct H as (Hf & Hc). cbn. auto.
  - (* AtCheckProcess *)
    destruct H as (Hf & Hl & Hc).
    destruct (_process (self c)) eqn:Hp; cbn; rewrite ?Hp;
      repeat split; auto; discriminate.
  - (* AtSetFailed *) destruct H as (Hp & Hf & Hl & Hc). cbn. auto.
  - (* AtFailCallback *)
    destruct H as (Hp & Hf & Hl & Hc). rewrite Hcb.
    destruct cb as [[[] [[]|e]]|]; cbn;
      rewrite ?callback_calls_app, ?Hc; cbn; repeat split; auto.
  - (* AtFailReturn *)
    destruct H as (Hp & Hf & Hl & Hc). cbn. repeat split; auto.
  - (* AtLogStarted *)
    destruct H as (Hp & Hf & Hl & Hc).
    destruct (_process (self c)) eqn:Hq; [|contradiction].
    cbn. rewrite Hq, callback_calls_app, Hc. repeat split; auto.
  - (* AtReadline *)
    destruct H as (Hp & Hf & Hl & Hc).
    destruct (_process (self c)) as [q|] eqn:Hq; [|contradiction].
    destruct (readline LOG_LINE_MAX_LENGTH (stdout q) (stdout_error q))
      as [[line rest]|e];
      cbn [pc self trace set_process _callback _process _start_failed
             _has_started];
      rewrite callback_calls_app, Hc.
    + destruct (String.eqb line ""); repeat split; auto; discriminate.
    + cbn. split; [exact Hcb|]. split; [lia|]. congruence.
  - (* AtLogLine *)
    destruct H as (Hp & Hf & Hl & Hc). cbn.
    rewrite callback_calls_app, Hc. repeat split; auto.
  - (* AtWait *)
    destruct H as (Hp & Hf & Hl & Hc).
    destruct (_process (self c)) as [q|] eqn:Hq; [|contradiction].
    cbn. repeat split; auto. apply wait_fields.
  - (* AtCallback *)
    destruct H as (He & Hf & Hl & Hc). rewrite Hcb.
    destruct cb as [[[] [[]|e]]|]; cbn;
      rewrite ?callback_calls_app, ?Hc; cbn; repeat split; auto;
      congruence.
  - (* AtReturn *)
    destruct H as (He & Hf & Hl & Hc). cbn. repeat split; auto.
  - rewrite Hpc. auto.
  - rewrite Hpc. auto.
Qed.

Lemma sys_step_lifecycle (env : Env) (cb : option Callback)
    (a : Action) (c : Cfg) :
  lifecycle_inv cb c -> lifecycle_inv cb (sys_step env a c).
Proof.
  intro H. destruct a; cbn [sys_step].
  - now apply run_step_lifecycle.
  - pose proof (notify_frame env (self c)) as F.
    destruct (notify env (self c)) as [self' m]. cbn [fst snd] in F.
    destruct F as (F1 & F2 & F3 & F4 & F5 & F6 & F7).
    now apply lifecycle_frame.
  - pose proof (terminate_frame env (self c)) as F.
    destruct (terminate env (self c)) as [self' m]. cbn [fst snd] in F.
    destruct F as (F1 & F2 & F3 & F4 & F5 & F6 & F7).
    now apply lifecycle_frame.
  - destruct (_process (self c)) as [q|] eqn:Hq; [|exact H].
    replace (trace c) with (trace c ++ []) by apply app_nil_r.
    apply lifecycle_frame; try reflexivity; try exact H.
    + rewrite Hq. discriminate.
    + intros _. discriminate.
    + unfold exit_code. rewrite Hq. auto.
Qed.

Lemma interleave_lifecycle (env : Env) (cb : option Callback)
    (acts : list Action) :
  forall c, lifecycle_inv cb c -> lifecycle_inv cb (interleave env acts c).
Proof.
  induction acts as [|a acts IH]; intros c H; [exact H|].
  cbn [interleave fold_left]. apply IH. now apply sys_step_lifecycle.
Qed.

Lemma enter_run_lifecycle (self0 : LoggingSubprocess) :
  _process self0 = None -> _start_failed self0 = false ->
  lifecycle_inv (_callback self0) (enter_run self0 []).
Proof. intros Hp Hf. unfold lifecycle_inv. cbn. auto. Qed.

(** X8. One [run] on a handle without a process, whatever notify and
    terminate calls and child exits are interleaved with it, and however far
    it has come: once [failed_to_start] is true there is no pid and no exit
    code, the handle is not running, and the latch is set. *)
Theorem failed_start_excludes_a_process (env : Env) (acts : list Action)
    (self0 : LoggingSubprocess) :
  _process self0 = None -> _start_failed self0 = false ->
  failed_to_start (self (interleave env acts (enter_run self0 []))) = true ->
  pid_of (self (interleave env acts (enter_run self0 []))) = None /\
  exit_code (self (interleave env acts (enter_run self0 []))) = None /\
  is_running (self (interleave env acts (enter_run self0 []))) = false /\
  has_started (self (interleave env acts (enter_run self0 []))) = true.
Proof.
  intros Hp Hf.
  pose proof (interleave_lifecycle env _ acts _
                (enter_run_lifecycle self0 Hp Hf)) as [_ H].
  set (c := interleave env acts (enter_run self0 [])) in *.
  unfold failed_to_start, pid_of, exit_code, is_running, has_started.
  intro Hfail.
  assert (Hn : _process (self c) = None /\ _has_started (self c) = true).
  { destruct (pc c); try (destruct H as (_ & H & _); congruence);
      try (destruct H as (H & _); congruence).
    - destruct H as (? & ? & ? & ?). auto.
    - destruct H as (? & ? & ? & ?). auto.
    - destruct H as (? & ? & [[? ?]|[? ?]]); [auto|congruence].
    - destruct H as (_ & H). auto. }
  destruct Hn as [Hn Hl]. rewrite Hn, Hl. repeat split.
Qed.

Lemma failed_start_excludes_a_process_witness :
  pid_of (self (interleave Example.posix
                  [ThreadRun; ThreadRun; CallTerminate; ThreadRun; ThreadRun;
                   ThreadRun; CallNotify]
                  (enter_run (Example.handle ["missing"] None) []))) = None /\
  exit_code (self (interleave Example.posix
                  [ThreadRun; ThreadRun; CallTerminate; ThreadRun; ThreadRun;
                   ThreadRun; CallNotify]
                  (enter_run (Example.handle ["missing"] None) []))) = None /\
  is_running (self (interleave Example.posix
                  [ThreadRun; ThreadRun; CallTerminate; ThreadRun; ThreadRun;
                   ThreadRun; CallNotify]
                  (enter_run (Example.handle ["missing"] None) []))) = false /\
  has_started (self (interleave Example.posix
                  [ThreadRun; ThreadRun; CallTerminate; ThreadRun; ThreadRun;
                   ThreadRun; CallNotify]
                  (enter_run (Example.handle ["missing"] None) []))) = true.
Proof.
  apply (failed_start_excludes_a_process Example.posix
           [ThreadRun; ThreadRun; CallTerminate; ThreadRun; ThreadRun;
            ThreadRun; CallNotify]
           (Example.handle ["missing"] None)).
  - reflexivity.
  - reflexivity.
  - reflexivity.
Defined.

(** X9. When such a [run] has returned, under any interleaving, the latch
    is set, the handle is not running, and exactly one of the two terminal
    states holds: failed to start with no exit code, or not failed with an
    exit code. *)
Theorem returned_run_is_terminal (env : Env) (acts : list Action)
    (self0 : LoggingSubprocess) :
  _process self0 = None -> _start_failed self0 = false ->
  pc (interleave env acts (enter_run self0 [])) = Returned ->
  has_started (self (interleave env acts (enter_run self0 []))) = true /\
  is_running (self (interleave env acts (enter_run self0 []))) = false /\
  ((failed_to_start (self (interleave env acts (enter_run self0 []))) = true /\
    exit_code (self (interleave env acts (enter_run self0 []))) = None) \/
   (failed_to_start (self (interleave env acts (enter_run self0 []))) = false /\
    exit_code (self (interleave env acts (enter_run self0 []))) <> None)).
Proof.
  intros Hp Hf.
  pose proof (interleave_lifecycle env _ acts _
                (enter_run_lifecycle self0 Hp Hf)) as [_ H].
  set (c := interleave env acts (enter_run self0 [])) in *.
  intro Hpc. rewrite Hpc in H. destruct H as (Hl & _ & H).
  unfold failed_to_start, exit_code, is_running, has_started in *.
  split; [exact Hl|].
  destruct H as [[Hfail Hn]|[Hfail He]].
  - rewrite Hn. split; [reflexivity|]. left. auto.
  - destruct (_process (self c)) as [q|]; [|contradiction].
    destruct (returncode q); [|contradiction].
    split; [reflexivity|]. right. split; [exact Hfail|discriminate].
Qed.

Lemma returned_run_is_terminal_witness :
  has_started (self (interleave Example.posix
     [ThreadRun; ThreadRun; ThreadRun; ThreadRun; ThreadRun; ThreadRun;
      ThreadRun]
     (enter_run (Example.handle ["missing"] None) []))) = true /\
  is_running (self (interleave Example.posix
     [ThreadRun; ThreadRun; ThreadRun; ThreadRun; ThreadRun; ThreadRun;
      ThreadRun]
     (enter_run (Example.handle ["missing"] None) []))) = false /\
  ((failed_to_start (self (interleave Example.posix
     [ThreadRun; ThreadRun; ThreadRun; ThreadRun; ThreadRun; ThreadRun;
      ThreadRun]
     (enter_run (Example.handle ["missing"] None) []))) = true /\
    exit_code (self (interleave Example.posix
     [ThreadRun; ThreadRun; ThreadRun; ThreadRun; ThreadRun; ThreadRun;
      ThreadRun]
     (enter_run (Example.handle ["missing"] None) []))) = None) \/
   (failed_to_start (self (interleave Example.posix
     [ThreadRun; ThreadRun; ThreadRun; ThreadRun; ThreadRun; ThreadRun;
      ThreadRun]
     (enter_run (Example.handle ["missing"] None) []))) = false /\
    exit_code (self (interleave Example.posix
     [ThreadRun; ThreadRun; ThreadRun; ThreadRun; ThreadRun; ThreadRun;
      ThreadRun]
     (enter_run (Example.handle ["missing"] None) []))) <> None)).
Proof.
  apply (returned_run_is_terminal Example.posix
           [ThreadRun; ThreadRun; ThreadRun; ThreadRun; ThreadRun; ThreadRun;
            ThreadRun]
           (Example.handle ["missing"] None)).
  - reflexivity.
  - reflexivity.
  - reflexivity.
Defined.

(** X10. The completion hook is called at most once by such a [run], under
    any interleaving: not at all while [run] has not come to its hook
    statement, and, once [run] is past that statement (about to return, or
    returned), exactly once if a hook was supplied and tests true, and never
    if none was supplied or the one supplied tests false. *)
Theorem callback_called_at_most_once (env : Env) (acts : list Action)
    (self0 : LoggingSubprocess) :
  _process self0 = None -> _start_failed self0 = false ->
  (callback_calls (trace (interleave env acts (enter_run self0 []))) <= 1)%nat /\
  (finished (pc (interleave env acts (enter_run self0 []))) = false ->
   pc (interleave env acts (enter_run self0 [])) <> AtFailReturn ->
   pc (interleave env acts (enter_run self0 [])) <> AtReturn ->
   callback_calls (trace (interleave env acts (enter_run self0 []))) = O) /\
  (pc (interleave env acts (enter_run self0 [])) = AtFailReturn \/
   pc (interleave env acts (enter_run self0 [])) = AtReturn \/
   pc (interleave env acts (enter_run self0 [])) = Returned ->
   callback_calls (trace (interleave env acts (enter_run self0 [])))
   = match _callback self0 with
     | Some f => if cb_truthy f then 1%nat else 0%nat
     | None => 0%nat
     end).
Proof.
  intros Hp Hf.
  pose proof (interleave_lifecycle env _ acts _
                (enter_run_lifecycle self0 Hp Hf)) as [_ H].
  set (c := interleave env acts (enter_run self0 [])) in *.
  fold (expected_calls (_callback self0)).
  assert (Hle : (expected_calls (_callback self0) <= 1)%nat).
  { unfold expected_calls.
    destruct (_callback self0) as [f|]; [destruct (cb_truthy f)|]; lia. }
  destruct (pc c) eqn:Hpc; cbn [finished];
    try (assert (Hc : callback_calls (trace c) = O) by tauto;
         rewrite Hc; split; [lia|]; split; [reflexivity|];
         intros [Hx|[Hx|Hx]]; discriminate).
  - (* AtFailReturn *)
    destruct H as (_ & _ & _ & Hc). rewrite Hc.
    split; [exact Hle|]. split; [congruence|reflexivity].
  - (* AtReturn *)
    destruct H as (_ & _ & _ & Hc). rewrite Hc.
    split; [exact Hle|]. split; [congruence|reflexivity].
  - (* Returned *)
    destruct H as (_ & Hc & _). rewrite Hc.
    split; [exact Hle|]. split; [discriminate|reflexivity].
  - (* Raised *)
    destruct H as (Hc & _). split; [exact Hc|].
    split; [discriminate|]. intros [Hx|[Hx|Hx]]; discriminate.
Qed.

Lemma callback_called_at_most_once_witness :
  (callback_calls
     (trace (interleave Example.posix
               [ThreadRun; ThreadRun; ChildExits; CallNotify; ThreadRun]
               (enter_run (Example.handle ["echo"; "hi"] None) []))) <= 1)%nat.
Proof.
  refine (proj1 (callback_called_at_most_once Example.posix
                   [ThreadRun; ThreadRun; ChildExits; CallNotify; ThreadRun]
                   (Example.handle ["echo"; "hi"] None) _ _));
    reflexivity.
Defined.

Lemma only_forward_refl (s : LoggingSubprocess) : only_forward s s.
Proof. unfold only_forward. auto. Qed.

Lemma only_forward_trans (s1 s2 s3 : LoggingSubprocess) :
  only_forward s1 s2 -> only_forward s2 s3 -> only_forward s1 s3.
Proof.
  unfold only_forward. intros (A1 & A2 & A3 & A4) (B1 & B2 & B3 & B4).
  repeat split; auto.
Qed.

Lemma only_forward_poll (s : LoggingSubprocess) (p : Popen) :
  _process s = Some p ->
  only_forward s (set_process s (Some (snd (poll p)))).
Proof.
  intro Hp. destruct (poll_fields p) as (H1 & _ & _ & _ & H5 & H6).
  unfold only_forward, has_started, failed_to_start, pid_of, exit_code.
  rewrite Hp. cbn. rewrite H1, H5, H6.
  repeat split; auto. intros k Hk. now rewrite Hk.
Qed.

Lemma run_step_only_forward (env : Env) (cb : option Callback)
    (c : Cfg) :
  lifecycle_inv cb c -> only_forward (self c) (self (run_step env c)).
Proof.
  unfold lifecycle_inv, run_step, call_callback. intros [_ H].
  destruct (pc c) eqn:Hpc.
  - (* AtGuard *) destruct (_process (self c)); apply only_forward_refl.
  - (* AtStart *)
    destruct H as (Hp & _).
    destruct (_start_subprocess env (self c)) as [[q|e] t];
      [|apply only_forward_refl].
    unfold only_forward, has_started, failed_to_start, pid_of, exit_code.
    cbn. rewrite Hp. repeat split; auto; discriminate.
  - (* AtSetStarted *)
    unfold only_forward, has_started, failed_to_start, pid_of, exit_code.
    cbn. auto.
  - (* AtCheckProcess *)
    destruct (_process (self c)); apply only_forward_refl.
  - (* AtSetFailed *)
    unfold only_forward, has_started, failed_to_start, pid_of, exit_code.
    cbn. auto.
  - (* AtFailCallback *)
    destruct (_callback (self c)) as [[[] [|]]|]; apply only_forward_refl.
  - (* AtFailReturn *) apply only_forward_refl.
  - (* AtLogStarted *)
    destruct (_process (self c)); apply only_forward_refl.
  - (* AtReadline *)
    destruct (_process (self c)) as [q|] eqn:Hq; [|apply only_forward_refl].
    destruct (readline LOG_LINE_MAX_LENGTH (stdout q) (stdout_error q))
      as [[line rest]|e]; [|apply only_forward_refl].
    unfold only_forward, has_started, failed_to_start, pid_of, exit_code.
    cbn [self set_process _process _has_started _start_failed set_stdout
           pid returncode].
    rewrite Hq. auto.
  - (* AtLogLine *) apply only_forward_refl.
  - (* AtWait *)
    destruct (_process (self c)) as [q|] eqn:Hq; [|apply only_forward_refl].
    destruct (wait_fields q) as (W1 & _ & W3).
    unfold only_forward, has_started, failed_to_start, pid_of, exit_code.
    cbn. rewrite Hq, W1. repeat split; auto.
  - (* AtCallback *)
    destruct (_callback (self c)) as [[[] [|]]|]; apply only_forward_refl.
  - (* AtReturn *) apply only_forward_refl.
  - apply only_forward_refl.
  - apply only_forward_refl.
Qed.

Lemma sys_step_only_forward (env : Env) (cb : option Callback)
    (a : Action) (c : Cfg) :
  lifecycle_inv cb c -> only_forward (self c) (self (sys_step env a c)).
Proof.
  intro H. destruct a; cbn [sys_step].
  - exact (run_step_only_forward env cb c H).
  - destruct (cancel_handle env (self c)) as [_ Hn]. revert Hn.
    destruct (notify env (self c)) as [self' m]. cbn [fst self].
    intros ->. destruct (_process (self c)) eqn:Hp;
      [now apply only_forward_poll|apply only_forward_refl].
  - destruct (cancel_handle env (self c)) as [Heq Hn].
    rewrite Heq in Hn. revert Hn.
    destruct (terminate env (self c)) as [self' m]. cbn [fst self].
    intros ->. destruct (_process (self c)) eqn:Hp;
      [now apply only_forward_poll|apply only_forward_refl].
  - destruct (_process (self c)) as [q|] eqn:Hq; [|apply only_forward_refl].
    unfold only_forward, has_started, failed_to_start, pid_of, exit_code.
    cbn. rewrite Hq. auto.
Qed.

Lemma interleave_only_forward (env : Env) (cb : option Callback)
    (acts : list Action) :
  forall c, lifecycle_inv cb c ->
            only_forward (self c) (self (interleave env acts c)).
Proof.
  induction acts as [|a acts IH]; intros c H; [apply only_forward_refl|].
  cbn [interleave fold_left].
  apply only_forward_trans with (s2 := self (sys_step env a c)).
  - exact (sys_step_only_forward env cb a c H).
  - apply IH. now apply sys_step_lifecycle.
Qed.

(** X11. During one [run] on a handle without a process, under any
    interleaving, what the accessors have shown never goes back: from any
    state reached to any state reached later, a set latch stays set, a
    failed start stays failed, and a pid or an exit code that was there is
    still there with the same value. *)
Theorem accessors_only_move_forward (env : Env) (acts later : list Action)
    (self0 : LoggingSubprocess) :
  _process self0 = None -> _start_failed self0 = false ->
  only_forward
    (self (interleave env acts (enter_run self0 [])))
    (self (interleave env later (interleave env acts (enter_run self0 [])))).
Proof.
  intros Hp Hf.
  apply (interleave_only_forward env (_callback self0)).
  apply interleave_lifecycle. now apply enter_run_lifecycle.
Qed.

Lemma accessors_only_move_forward_witness :
  only_forward
    (self (interleave Example.posix [ThreadRun; ThreadRun; ThreadRun]
             (enter_run (Example.handle ["echo"; "hi"] None) [])))
    (self (interleave Example.posix [ChildExits; CallTerminate; ThreadRun]
             (interleave Example.posix [ThreadRun; ThreadRun; ThreadRun]
                (enter_run (Example.handle ["echo"; "hi"] None) [])))).
Proof.
  apply (accessors_only_move_forward Example.posix
           [ThreadRun; ThreadRun; ThreadRun]
           [ChildExits; CallTerminate; ThreadRun]
           (Example.handle ["echo"; "hi"] None)); reflexivity.
Defined.

(** ** What reaches the log *)

Lemma log_messages_app (lvl : Level) (t1 t2 : list Event) :
  log_messages lvl (t1 ++ t2) = log_messages lvl t1 ++ log_messages lvl t2.
Proof.
  induction t1 as [|ev t1 IH]; [reflexivity|].
  destruct ev; simpl; try exact IH.
  destruct (level_eqb lvl0 lvl); simpl; now rewrite IH.
Qed.

Lemma log_messages_stream_events (lines : list string) :
  log_messages INFO (stream_events lines) = map rstrip lines.
Proof.
  unfold stream_events. rewrite log_messages_app. cbn.
  rewrite app_nil_r. induction lines as [|l lines IH]; [reflexivity|].
  cbn. now rewrite IH.
Qed.

Lemma log_messages_callback_outcome (self0 : LoggingSubprocess) :
  log_messages INFO (snd (callback_outcome self0)) = [].
Proof.
  unfold callback_outcome.
  destruct (_callback self0) as [[[] [|]]|]; reflexivity.
Qed.

Lemma rstrip_only_terminators (s : string) :
  only_terminators s = true -> rstrip s = EmptyString.
Proof.
  induction s as [|c s IH]; [reflexivity|]. simpl. intro H.
  apply andb_prop in H. destruct H as [Hc Hs].
  rewrite (IH Hs), Hc. reflexivity.
Qed.

Lemma rstrip_app_terminators (l suffix : string) :
  only_terminators suffix = true ->
  rstrip (l ++ suffix) = rstrip l.
Proof.
  intro H. induction l as [|c l IH]; simpl.
  - now apply rstrip_only_terminators.
  - now rewrite IH.
Qed.

Lemma rstrip_id (l : string) :
  last_char l <> Some LF -> last_char l <> Some CR -> rstrip l = l.
Proof.
  induction l as [|c l IH]; [reflexivity|]. intros Hlf Hcr.
  destruct l as [|d l].
  - simpl in *.
    destruct (Ascii.eqb c LF) eqn:H1;
      [apply Ascii.eqb_eq in H1; congruence|].
    destruct (Ascii.eqb c CR) eqn:H2;
      [apply Ascii.eqb_eq in H2; congruence|].
    reflexivity.
  - change (rstrip (String c (String d l)))
      with (match rstrip (String d l) with
            | EmptyString =>
                if Ascii.eqb c LF || Ascii.eqb c CR then EmptyString
                else String c EmptyString
            | r => String c r
            end).
    rewrite IH by assumption. reflexivity.
Qed.

Lemma has_char_rstrip (c : ascii) (s : string) :
  has_char c s = false -> has_char c (rstrip s) = false.
Proof.
  induction s as [|d s IH]; [reflexivity|]. simpl. intro H.
  apply orb_false_elim in H. destruct H as [Hd Hs]. specialize (IH Hs).
  destruct (rstrip s) as [|e r].
  - destruct (Ascii.eqb d LF || Ascii.eqb d CR); simpl;
      [reflexivity|now rewrite Hd].
  - simpl in *. now rewrite Hd, IH.
Qed.

Lemma has_char_last (c : ascii) (s : string) :
  has_char c s = false -> last_char s <> Some c.
Proof.
  induction s as [|d s IH]; [discriminate|]. simpl. intro H.
  apply orb_false_elim in H. destruct H as [Hd Hs].
  destruct s as [|e s].
  - apply Ascii.eqb_neq in Hd. congruence.
  - exact (IH Hs).
Qed.

Lemma string_length_app (a b : string) :
  String.length (a ++ b) = (String.length a + String.length b)%nat.
Proof. induction a as [|c a IH]; simpl; [reflexivity|now rewrite IH]. Qed.

Lemma join_lines_length (l : string) (ls : list string) :
  (String.length (join_lines ls) < String.length (join_lines (l :: ls)))%nat.
Proof.
  cbn [join_lines]. rewrite string_length_app. simpl. lia.
Qed.

(** A whole line shorter than the size is returned with its line feed,
    whether or not decoding fails further on. *)
Lemma readline_line (size : Z) (l rest : string) (err : option PyExc) :
  has_char LF l = false -> has_char CR l = false ->
  Z.of_nat (String.length l) < size ->
  readline size (l ++ String LF rest) err
  = Ok ((l ++ String LF EmptyString)%string, rest).
Proof.
  intros Hl Hl' Hlen. unfold readline.
  rewrite (readline_upto_line l rest (Z.to_nat size) Hl Hl') by lia.
  unfold line_complete.
  assert (He : ends_in_LF (l ++ String LF "") = true)
    by (apply ends_in_LF_last, last_char_app_LF).
  rewrite He. reflexivity.
Qed.

Lemma lines_of_join (size : Z) (ls : list string) (err : option PyExc) :
  Forall (fun l => has_char LF l = false /\ has_char CR l = false /\
                   Z.of_nat (String.length l) < size) ls ->
  forall n, (String.length (join_lines ls) <= n)%nat ->
  lines_of (S n) size (join_lines ls) err
  = map (fun l => (l ++ String LF EmptyString)%string) ls.
Proof.
  induction 1 as [|l ls (Hl & Hl' & Hlen) Hrest IH]; intros n Hn.
  - cbn [join_lines map]. rewrite lines_of_S. unfold readline.
    destruct (Z.to_nat size); cbn; destruct err; reflexivity.
  - pose proof (join_lines_length l ls) as Hlt.
    destruct n as [|n]; [lia|].
    rewrite lines_of_S. cbn [join_lines].
    rewrite (readline_line size l (join_lines ls) err Hl Hl' Hlen).
    destruct (String.eqb (l ++ String LF "") "") eqn:He.
    + apply String.eqb_eq in He. destruct l; discriminate.
    + cbn [map]. f_equal. apply IH. lia.
Qed.

(** X12. A child prints lines, each followed by a line feed, none holding a
    line feed or a carriage return, each shorter than the cap, and all of
    its output decodes.  Then [run] finishes and the INFO records it adds
    after those of the spawn are the start announcement and these lines,
    unchanged and in order. *)
Theorem ordinary_lines_are_logged_verbatim (env : Env)
    (self0 : LoggingSubprocess) (p : Popen) (t0 : list Event)
    (ls : list string) :
  _process self0 = None ->
  _start_subprocess env self0 = (Ok (Some p), t0) ->
  stdout_error p = None ->
  stdout p = join_lines ls ->
  Forall (fun l => has_char LF l = false /\ has_char CR l = false /\
                   Z.of_nat (String.length l) < LOG_LINE_MAX_LENGTH) ls ->
  exists fuel0, forall fuel, exists self1 t1,
    run env (fuel0 + fuel) self0
    = Some (fst (callback_outcome self0), self1, t1) /\
    log_messages INFO t1
    = log_messages INFO t0
      ++ [("Command started as pid: " ++ str_int (pid p))%string] ++ ls.
Proof.
  intros Hp Hs Herr Hout Hls.
  destruct (run_spawned env self0 p t0 Hp Hs) as (fuel0 & rest & Hrun).
  rewrite Herr in Hrun.
  exists fuel0. intro fuel. eexists _, _. split; [apply Hrun|].
  rewrite !log_messages_app, log_messages_stream_events, Hout.
  rewrite (lines_of_join LOG_LINE_MAX_LENGTH ls None Hls) by apply le_n.
  rewrite log_messages_callback_outcome, app_nil_r.
  cbn [log_messages level_eqb].
  f_equal. cbn [app]. f_equal.
  clear Hout. induction Hls as [|l ls (Hl & Hcr & _) _ IH];
    [reflexivity|].
  cbn [map]. rewrite IH. f_equal.
  rewrite rstrip_app_terminators by reflexivity.
  apply rstrip_id; now apply has_char_last.
Qed.

Lemma ordinary_lines_are_logged_verbatim_witness :
  exists fuel0, forall fuel, exists self1 t1,
    run ExampleLines.posix (fuel0 + fuel) (Example.handle ["count"] None)
    = Some (Ok tt, self1, t1) /\
    log_messages INFO t1
    = ["Running command count"]
      ++ ["Command started as pid: 77"] ++ ["one"; "two"].
Proof.
  apply (ordinary_lines_are_logged_verbatim ExampleLines.posix
           (Example.handle ["count"] None) ExampleLines.spawned
           [EvLog INFO "Running command count";
            EvPopen {| pa_args := ["count"]; pa_stdin := DEVNULL;
                       pa_stdout := PIPE; pa_stderr := STDOUT;
                       pa_encoding := "utf-8"; pa_start_new_session := true;
                       pa_creationflags := None |}]
           ["one"; "two"]).
  - reflexivity.
  - reflexivity.
  - reflexivity.
  - reflexivity.
  - repeat constructor.
Defined.

Lemma lines_of_no_terminators (size : Z) (n : nat) (s : string)
    (err : option PyExc) :
  0 < size ->
  Forall (fun m => has_char LF m = false /\ has_char CR m = false)
         (map rstrip (lines_of n size s err)).
Proof.
  intro Hsize. revert s. induction n as [|n IH]; intro s; [constructor|].
  rewrite lines_of_S.
  destruct (readline size s err) as [[line rest]|e] eqn:Hr; [|constructor].
  apply (readline_ok size) in Hr.
  destruct (readline_upto_body (Z.to_nat size) s) as (body & Hb & Hb' & Hs).
  rewrite Hr in Hs. cbn [fst] in Hs.
  destruct (String.eqb line ""); [constructor|].
  cbn [map]. constructor; [|apply IH].
  destruct Hs as [-> | ->].
  - split; now apply has_char_rstrip.
  - rewrite rstrip_app_terminators by reflexivity.
    split; now apply has_char_rstrip.
Qed.

(** X13. After a successful spawn, whatever the child prints and whether
    or not it decodes, [run] finishes, normally or with the decoding error,
    and no record it has logged for the child's output holds a line feed or
    a carriage return. *)
Theorem output_records_hold_no_line_ending (env : Env)
    (self0 : LoggingSubprocess) (p : Popen) (t0 : list Event) :
  _process self0 = None ->
  _start_subprocess env self0 = (Ok (Some p), t0) ->
  exists fuel0 r self1 out,
    (forall fuel,
       run env (fuel0 + fuel) self0
       = Some (r, self1,
               t0
               ++ [EvLog INFO
                     ("Command started as pid: " ++ str_int (pid p))%string]
               ++ out
               ++ match stdout_error p with
                  | None => snd (callback_outcome self0)
                  | Some _ => []
                  end)) /\
    r = match stdout_error p with
        | None => fst (callback_outcome self0)
        | Some e => Raise e
        end /\
    Forall (fun m => has_char LF m = false /\ has_char CR m = false)
           (log_messages INFO out).
Proof.
  intros Hp Hs.
  destruct (run_spawned env self0 p t0 Hp Hs) as (fuel0 & rest & Hrun).
  exists fuel0.
  destruct (stdout_error p) as [e|]; eexists _, _, _;
    (split; [|split; [reflexivity|]]);
    try (rewrite log_messages_stream_events;
         apply lines_of_no_terminators, log_line_max_length_pos).
  - intro fuel. rewrite app_nil_r. apply Hrun.
  - exact Hrun.
Qed.

Lemma output_records_hold_no_line_ending_witness :
  exists fuel0 r self1 out,
    (forall fuel,
       run Example.posix (fuel0 + fuel) (Example.handle ["echo"; "hi"] None)
       = Some (r, self1,
               [EvLog INFO "Running command echo hi";
                EvPopen {| pa_args := ["echo"; "hi"]; pa_stdin := DEVNULL;
                           pa_stdout := PIPE; pa_stderr := STDOUT;
                           pa_encoding := "utf-8";
                           pa_start_new_session := true;
                           pa_creationflags := None |}]
               ++ [EvLog INFO "Command started as pid: 4242"]
               ++ out ++ [EvCallback])) /\
    r = Ok tt /\
    Forall (fun m => has_char LF m = false /\ has_char CR m = false)
           (log_messages INFO out).
Proof.
  apply (output_records_hold_no_line_ending Example.posix
           (Example.handle ["echo"; "hi"] None) Example.spawned).
  - reflexivity.
  - reflexivity.
Defined.

Lemma strip_terminators_app (a b : string) :
  strip_terminators (a ++ b)
  = (strip_terminators a ++ strip_terminators b)%string.
Proof.
  induction a as [|c a IH]; [reflexivity|]. simpl.
  destruct (Ascii.eqb c LF || Ascii.eqb c CR); simpl; now rewrite IH.
Qed.

Lemma strip_only_terminators (s : string) :
  only_terminators s = true -> strip_terminators s = EmptyString.
Proof.
  induction s as [|c s IH]; [reflexivity|]. simpl. intro H.
  apply andb_prop in H. destruct H as [Hc Hs]. now rewrite Hc, IH.
Qed.

Lemma strip_rstrip (l : string) :
  strip_terminators (rstrip l) = strip_terminators l.
Proof.
  destruct (rstrip_spec l) as (suffix & Heq & Hsuf & _).
  rewrite Heq at 2.
  rewrite strip_terminators_app, (strip_only_terminators suffix Hsuf).
  induction (strip_terminators (rstrip l)) as [|c s IH];
    [reflexivity|simpl; now rewrite <- IH].
Qed.

Lemma strip_concat_rstrip (lines : list string) :
  strip_terminators (string_concat (map rstrip lines))
  = strip_terminators (string_concat lines).
Proof.
  induction lines as [|l lines IH]; [reflexivity|].
  cbn [map string_concat fold_right].
  change (fold_right String.append EmptyString (map rstrip lines))
    with (string_concat (map rstrip lines)).
  change (fold_right String.append EmptyString lines)
    with (string_concat lines).
  now rewrite !strip_terminators_app, IH, strip_rstrip.
Qed.

(** Translating line endings changes line endings only. *)
Lemma strip_universal_newlines (s : string) :
  strip_terminators (universal_newlines s) = strip_terminators s.
Proof.
  assert (H : forall n s, (String.length s <= n)%nat ->
              strip_terminators (universal_newlines s) = strip_terminators s).
  { clear s. induction n as [|n IH]; intros s Hlen.
    - destruct s; [reflexivity|simpl in Hlen; lia].
    - destruct s as [|c s]; [reflexivity|].
      cbn [universal_newlines]. simpl in Hlen.
      destruct (Ascii.eqb c CR) eqn:Hcr.
      + cbn [strip_terminators]. rewrite Hcr, orb_true_r.
        rewrite Ascii.eqb_refl. cbn [orb].
        destruct s as [|d s]; [reflexivity|].
        destruct (Ascii.eqb d LF) eqn:Hd.
        * cbn [strip_terminators]. rewrite Hd. cbn [orb].
          apply IH. simpl in Hlen. lia.
        * apply IH. lia.
      + cbn [strip_terminators].
        destruct (Ascii.eqb c LF || false); rewrite IH by lia; reflexivity. }
  exact (H (String.length s) s (le_n _)).
Qed.

(** X14. After a successful spawn of a child all of whose output decodes,
    the records that [run] logs for the output, put end to end, are the
    decoded output but for line feeds and carriage returns: no other
    character is lost, added or moved, also when lines are longer than the
    cap or the output does not end in a line feed. *)
Theorem output_is_logged_but_for_terminators (env : Env)
    (self0 : LoggingSubprocess) (p : Popen) (t0 : list Event) :
  _process self0 = None ->
  _start_subprocess env self0 = (Ok (Some p), t0) ->
  stdout_error p = None ->
  exists fuel0 self1 out,
    (forall fuel,
       run env (fuel0 + fuel) self0
       = Some (fst (callback_outcome self0), self1,
               t0
               ++ [EvLog INFO
                     ("Command started as pid: " ++ str_int (pid p))%string]
               ++ out ++ snd (callback_outcome self0))) /\
    strip_terminators (string_concat (log_messages INFO out))
    = strip_terminators (stdout p).
Proof.
  intros Hp Hs Herr.
  destruct (run_spawned env self0 p t0 Hp Hs) as (fuel0 & rest & Hrun).
  rewrite Herr in Hrun.
  exists fuel0. eexists _, _. split; [exact Hrun|].
  rewrite log_messages_stream_events, strip_concat_rstrip.
  rewrite (lines_of_concat LOG_LINE_MAX_LENGTH log_line_max_length_pos)
    by apply le_n.
  apply strip_universal_newlines.
Qed.

Lemma output_is_logged_but_for_terminators_witness :
  exists fuel0 self1 out,
    (forall fuel,
       run Example.posix (fuel0 + fuel) (Example.handle ["echo"; "hi"] None)
       = Some (Ok tt, self1,
               [EvLog INFO "Running command echo hi";
                EvPopen {| pa_args := ["echo"; "hi"]; pa_stdin := DEVNULL;
                           pa_stdout := PIPE; pa_stderr := STDOUT;
                           pa_encoding := "utf-8";
                           pa_start_new_session := true;
                           pa_creationflags := None |}]
               ++ [EvLog INFO "Command started as pid: 4242"]
               ++ out ++ [EvCallback])) /\
    strip_terminators (string_concat (log_messages INFO out)) = "hix".
Proof.
  apply (output_is_logged_but_for_terminators Example.posix
           (Example.handle ["echo"; "hi"] None) Example.spawned).
  - reflexivity.
  - reflexivity.
  - reflexivity.
Defined.

(** ** The exit code is the child's status *)

Lemma run_step_returncode_is_status (env : Env) (c : Cfg) :
  fresh_popen env ->
  returncode_is_status (self c) ->
  returncode_is_status (self (run_step env c)).
Proof.
  intros Hfresh H. unfold run_step, call_callback.
  destruct (pc c) eqn:Hpc; try exact H.
  - destruct (_process (self c)); exact H.
  - destruct (_start_subprocess env (self c)) as [[q|e] t] eqn:Hs;
      [|exact H].
    cbn [self]. intros p Hp. cbn in Hp.
    destruct q as [q|]; [|discriminate]. inversion Hp; subst q.
    left. exact (start_subprocess_fresh env _ _ _ Hfresh Hs).
  - destruct (_process (self c)); exact H.
  - destruct (_callback (self c)) as [[[] [|]]|]; exact H.
  - destruct (_process (self c)); exact H.
  - destruct (_process (self c)) as [q|] eqn:Hq; [|exact H].
    destruct (readline LOG_LINE_MAX_LENGTH (stdout q) (stdout_error q))
      as [[line rest]|e]; [|exact H].
    cbn [self]. intros p Hp. cbn in Hp. inversion Hp; subst p.
    exact (H q Hq).
  - destruct (_process (self c)) as [q|] eqn:Hq; [|exact H].
    cbn [self]. intros p Hp. cbn in Hp. inversion Hp; subst p.
    pose proof (H q Hq) as Hst.
    unfold wait. destruct (returncode q) eqn:Hrc.
    + rewrite Hrc. exact Hst.
    + right. reflexivity.
  - destruct (_callback (self c)) as [[[] [|]]|]; exact H.
Qed.

Lemma poll_returncode_is_status (s : LoggingSubprocess) (q : Popen) :
  _process s = Some q ->
  returncode_is_status s ->
  returncode_is_status (set_process s (Some (snd (poll q)))).
Proof.
  intros Hq H p Hp. cbn in Hp. inversion Hp; subst p.
  specialize (H q Hq). unfold poll.
  destruct (returncode q) eqn:Hrc; cbn.
  - rewrite Hrc. exact H.
  - destruct (child_exited q); cbn; [right; reflexivity|left; exact Hrc].
Qed.

Lemma sys_step_returncode_is_status (env : Env) (a : Action) (c : Cfg) :
  fresh_popen env ->
  returncode_is_status (self c) ->
  returncode_is_status (self (sys_step env a c)).
Proof.
  intros Hfresh H. destruct a; cbn [sys_step].
  - now apply run_step_returncode_is_status.
  - destruct (cancel_handle env (self c)) as [_ Hn]. revert Hn.
    destruct (notify env (self c)) as [self' m]. cbn [fst self].
    intros ->. destruct (_process (self c)) eqn:Hp;
      [now apply poll_returncode_is_status|exact H].
  - destruct (cancel_handle env (self c)) as [Heq Hn].
    rewrite Heq in Hn. revert Hn.
    destruct (terminate env (self c)) as [self' m]. cbn [fst self].
    intros ->. destruct (_process (self c)) eqn:Hp;
      [now apply poll_returncode_is_status|exact H].
  - destruct (_process (self c)) as [q|] eqn:Hq; [|exact H].
    cbn [self]. intros p Hp. cbn in Hp. inversion Hp; subst p.
    exact (H q Hq).
Qed.

Lemma interleave_returncode_is_status (env : Env) (acts : list Action) :
  fresh_popen env ->
  forall c, returncode_is_status (self c) ->
            returncode_is_status (self (interleave env acts c)).
Proof.
  intro Hfresh. induction acts as [|a acts IH]; intros c H; [exact H|].
  cbn [interleave fold_left]. apply IH.
  now apply sys_step_returncode_is_status.
Qed.

(** X15. On a host whose new process objects carry no return code, during
    a [run] on a handle without a process and under any interleaving:
    whenever [exit_code] shows a number, it is the status the child exited
    with, whether [wait] in [run] stored it or [poll] in notify or
    terminate did. *)
Theorem exit_code_is_the_status_of_the_child (env : Env)
    (acts : list Action) (self0 : LoggingSubprocess) (k : Z) :
  fresh_popen env ->
  _process self0 = None ->
  exit_code (self (interleave env acts (enter_run self0 []))) = Some k ->
  exists p,
    _process (self (interleave env acts (enter_run self0 []))) = Some p /\
    k = child_status p.
Proof.
  intros Hfresh Hp Hk.
  assert (H0 : returncode_is_status (self (enter_run self0 []))).
  { intros p Hq. cbn in Hq. congruence. }
  pose proof (interleave_returncode_is_status env acts Hfresh _ H0) as H.
  unfold exit_code in Hk.
  destruct (_process (self (interleave env acts (enter_run self0 []))))
    as [p|] eqn:Hq; [|discriminate].
  exists p. split; [reflexivity|].
  destruct (H p Hq) as [Hn|Hs]; congruence.
Qed.

Lemma exit_code_is_the_status_of_the_child_witness :
  exists p,
    _process
      (self (interleave ExampleLines.posix
               [ThreadRun; ThreadRun; ChildExits; CallNotify]
               (enter_run (Example.handle ["count"] None) []))) = Some p /\
    0 = child_status p.
Proof.
  apply (exit_code_is_the_status_of_the_child ExampleLines.posix
           [ThreadRun; ThreadRun; ChildExits; CallNotify]
           (Example.handle ["count"] None) 0).
  - intros a p H. cbn in H. inversion H. reflexivity.
  - reflexivity.
  - reflexivity.
Defined.

(** ** One process per handle *)

(** X16. After a [run] that spawned a process has finished, a further
    [run] on the handle raises RuntimeError at once: nothing is logged, no
    process is created, the hook is not called, and the handle (pid, exit
    code, flags) is left as the first [run] left it. *)
Theorem second_run_after_a_spawn_is_refused (env : Env)
    (self0 : LoggingSubprocess) (p : Popen) (t0 : list Event) :
  _process self0 = None ->
  _start_subprocess env self0 = (Ok (Some p), t0) ->
  exists fuel0 r self1 t1,
    (forall fuel, run env (fuel0 + fuel) self0 = Some (r, self1, t1)) /\
    pid_of self1 = Some (pid p) /\
    (forall fuel,
       run env (1 + fuel) self1
       = Some (Raise {| exc_class := RuntimeError;
                        exc_msg := "The process has already been run" |},
               self1, [])).
Proof.
  intros Hp Hs.
  destruct (run_spawned env self0 p t0 Hp Hs) as (fuel0 & rest & Hrun).
  exists fuel0.
  destruct (stdout_error p) as [e|]; do 3 eexists;
    (split; [exact Hrun|]); split.
  - reflexivity.
  - intro fuel.
    apply run_refused_with_process with (p := set_stdout p rest).
    reflexivity.
  - unfold pid_of. cbn [_process set_process].
    destruct (wait_fields (set_stdout p "")) as (W & _). now rewrite W.
  - intro fuel.
    apply run_refused_with_process with (p := wait (set_stdout p "")).
    reflexivity.
Qed.

Lemma second_run_after_a_spawn_is_refused_witness :
  exists fuel0 r self1 t1,
    (forall fuel,
       run Example.posix (fuel0 + fuel) (Example.handle ["echo"; "hi"] None)
       = Some (r, self1, t1)) /\
    pid_of self1 = Some 4242 /\
    (forall fuel,
       run Example.posix (1 + fuel) self1
       = Some (Raise {| exc_class := RuntimeError;
                        exc_msg := "The process has already been run" |},
               self1, [])).
Proof.
  apply (second_run_after_a_spawn_is_refused Example.posix
           (Example.handle ["echo"; "hi"] None) Example.spawned
           [EvLog INFO "Running command echo hi";
            EvPopen {| pa_args := ["echo"; "hi"]; pa_stdin := DEVNULL;
                       pa_stdout := PIPE; pa_stderr := STDOUT;
                       pa_encoding := "utf-8"; pa_start_new_session := true;
                       pa_creationflags := None |}]).
  - reflexivity.
  - reflexivity.
Defined.

Lemma start_popen_at_most_once (env : Env) (self0 : LoggingSubprocess) :
  (length (popen_calls (snd (_start_subprocess env self0))) <= 1)%nat.
Proof.
  rewrite start_subprocess_events. unfold _start_subprocess_try.
  destruct (is_posix env); cbn.
  - lia.
  - destruct (encoded_start_job_wrapper env (_args self0) (_user self0));
      cbn; lia.
Qed.

Lemma posix_signal_no_popen (env : Env) (self0 : LoggingSubprocess)
    (signal : string) (flag : bool) :
  popen_calls (snd (_posix_signal_subprocess env self0 signal flag)) = [].
Proof.
  unfold _posix_signal_subprocess.
  destruct (_process self0) as [p|]; [|reflexivity]. cbn.
  destruct (subprocess_run env _) as [r|e]; cbn; [|reflexivity].
  destruct (cp_returncode r =? 0); cbn; [reflexivity|].
  destruct (cp_stdout_decode r); reflexivity.
Qed.

Lemma cancel_no_popen (env : Env) (self0 : LoggingSubprocess) :
  popen_calls (snd (snd (notify env self0))) = [] /\
  popen_calls (snd (snd (terminate env self0))) = [].
Proof.
  unfold notify, terminate.
  destruct (_process self0) as [p|]; [|split; reflexivity].
  destruct (poll p) as [[rc|] p']; [split; reflexivity|].
  destruct (is_posix env); cbn [snd].
  - split; apply posix_signal_no_popen.
  - split; [reflexivity|]. cbn.
    destruct (kill_windows_process_tree env (pid p') true); reflexivity.
Qed.

Lemma sys_step_spawns_once (env : Env) (a : Action) (c : Cfg) :
  (before_spawn (pc c) = true -> popen_calls (trace c) = []) /\
  (length (popen_calls (trace c)) <= 1)%nat ->
  (before_spawn (pc (sys_step env a c)) = true ->
   popen_calls (trace (sys_step env a c)) = []) /\
  (length (popen_calls (trace (sys_step env a c))) <= 1)%nat.
Proof.
  intros [H0 H1]. destruct a; cbn [sys_step].
  - unfold run_step, call_callback.
    destruct (pc c) eqn:Hpc; cbn [before_spawn] in *;
      try (cbn [pc trace]; rewrite ?popen_calls_app; cbn;
           rewrite ?app_nil_r; split; [discriminate|exact H1]).
    + destruct (_process (self c)); cbn; auto.
    + pose proof (start_popen_at_most_once env (self c)) as Hs.
      destruct (_start_subprocess env (self c)) as [[q|e] t];
        cbn [pc trace snd before_spawn] in *;
        rewrite popen_calls_app, (H0 eq_refl); cbn;
        (split; [discriminate|exact Hs]).
    + destruct (_process (self c)); cbn; split; (discriminate || exact H1).
    + destruct (_callback (self c)) as [[[] [|]]|]; cbn;
        rewrite ?popen_calls_app; cbn; rewrite ?app_nil_r;
        split; (discriminate || exact H1).
    + destruct (_process (self c)); cbn;
        rewrite ?popen_calls_app; cbn; rewrite ?app_nil_r;
        split; (discriminate || exact H1).
    + destruct (_process (self c)) as [q|]; [|cbn; split;
                                               (discriminate || exact H1)].
      destruct (readline LOG_LINE_MAX_LENGTH (stdout q) (stdout_error q))
        as [[line rest]|e];
        cbn [pc trace]; rewrite popen_calls_app; cbn; rewrite app_nil_r.
      * destruct (String.eqb line ""); split; (discriminate || exact H1).
      * split; (discriminate || exact H1).
    + destruct (_process (self c)); cbn; split; (discriminate || exact H1).
    + destruct (_callback (self c)) as [[[] [|]]|]; cbn;
        rewrite ?popen_calls_app; cbn; rewrite ?app_nil_r;
        split; (discriminate || exact H1).
    + rewrite Hpc. cbn. split; [discriminate|exact H1].
    + rewrite Hpc. cbn. split; [discriminate|exact H1].
  - destruct (cancel_no_popen env (self c)) as [Hn _]. revert Hn.
    destruct (notify env (self c)) as [self' m]. cbn [snd pc trace].
    intro Hn. rewrite popen_calls_app, Hn, app_nil_r. auto.
  - destruct (cancel_no_popen env (self c)) as [_ Hn]. revert Hn.
    destruct (terminate env (self c)) as [self' m]. cbn [snd pc trace].
    intro Hn. rewrite popen_calls_app, Hn, app_nil_r. auto.
  - destruct (_process (self c)); cbn; auto.
Qed.

(** X17. One call of [run] creates at most one process, whatever notify and
    terminate calls and child exits are interleaved with it; notify and
    terminate never create the command's process. *)
Theorem run_creates_at_most_one_process (env : Env) (acts : list Action)
    (self0 : LoggingSubprocess) :
  (length (popen_calls (trace (interleave env acts (enter_run self0 []))))
   <= 1)%nat /\
  popen_calls (snd (snd (notify env self0))) = [] /\
  popen_calls (snd (snd (terminate env self0))) = [].
Proof.
  split; [|apply cancel_no_popen].
  assert (H : forall c,
             (before_spawn (pc c) = true -> popen_calls (trace c) = []) /\
             (length (popen_calls (trace c)) <= 1)%nat ->
             (length (popen_calls (trace (interleave env acts c))) <= 1)%nat).
  { induction acts as [|a acts IH]; intros c Hc; [apply Hc|].
    cbn [interleave fold_left]. apply IH.
    now apply sys_step_spawns_once. }
  apply H. cbn. split; [reflexivity|lia].
Qed.
